(** * SincNet: the analytic filter bank and the feature pipeline

    A shallow embedding of [src/models/sincnet.py].

    Conventions of the embedding.
    - Python integers ([out_channels], [kernel_size], strides, lengths of
      tensors) are [Z]; [//] is [Z.div] and [%] is [Z.modulo], which agree
      with Python's floor division for the positive divisors used here.
    - Tensor scalars are real numbers [R]: rounding to float32, overflow and
      NaN inputs are outside the model.  The one float effect that is kept
      is the non-finite result of a division by zero: a scalar that went
      through a division is an [option R], [None] standing for NaN or an
      infinity.
    - An exception is a value of [exn]; a fallible operation returns a
      [result].
    - A tensor handed to [view] is a shape together with its row-major
      data. Column tensors of shape (m,1) and matrices are lists and lists
      of rows. *)

From Stdlib Require Import Reals Lra Lia ZArith List Bool.
Import ListNotations.

Set Implicit Arguments.

(** ** Exceptions *)

Inductive exn : Set :=
| ValueError
| NotImplementedError
| RuntimeError.

Inductive result (A : Type) : Type :=
| Ok (a : A)
| Raise (e : exn).

Arguments Ok {A} a.
Arguments Raise {A} e.

Definition bind {A B : Type} (r : result A) (k : A -> result B) : result B :=
  match r with
  | Ok a => k a
  | Raise e => Raise e
  end.

Declare Scope result_scope.
Delimit Scope result_scope with result.
Notation "x <- r ;; k" := (bind r (fun x => k))
  (at level 100, r at next level, right associativity) : result_scope.

Definition is_ok {A : Type} (r : result A) : bool :=
  match r with Ok _ => true | Raise _ => false end.

(** ** Scalars that went through a division *)

Local Open Scope R_scope.

(** [x / y] on floats: a zero divisor gives NaN or an infinity. *)
Definition fdiv (x y : R) : option R :=
  if Req_dec_T y 0 then None else Some (x / y).

(** [q * w] and [q / y] for a [q] that may already be non-finite. *)
Definition fmul_r (q : option R) (w : R) : option R :=
  match q with Some x => Some (x * w) | None => None end.

Definition fdiv_r (q : option R) (y : R) : option R :=
  match q with Some x => fdiv x y | None => None end.

(** ** List helpers *)

Fixpoint map2 {A B C : Type} (f : A -> B -> C) (xs : list A) (ys : list B)
  : list C :=
  match xs, ys with
  | x :: xs', y :: ys' => f x y :: map2 f xs' ys'
  | _, _ => []
  end.

Definition Zlength' {A : Type} (l : list A) : Z := Z.of_nat (length l).

(** ** The pieces of numpy the constructor uses *)

Module Numpy.

(** [np.linspace(start, stop, num)] with the endpoint included. *)
Definition linspace (start stop : R) (num : Z) : result (list R) :=
  if (num <? 0)%Z then Raise ValueError
  else
    let step := (stop - start) / IZR (num - 1) in
    Ok (map (fun i => start + INR i * step) (seq 0 (Z.to_nat num))).

Definition log10 (x : R) : R := ln x / ln 10.

(** [10 ** x] *)
Definition pow10 (x : R) : R := Rpower 10 x.

(** [np.diff(a)]: differences of consecutive entries. *)
Fixpoint diff (a : list R) : list R :=
  match a with
  | x :: ((y :: _) as tl) => (y - x) :: diff tl
  | _ => []
  end.

(** [np.hamming(M)]. *)
Definition hamming (M : Z) : list R :=
  if (M <? 1)%Z then []
  else if (M =? 1)%Z then [1]
  else map (fun i => 0.54 - 0.46 * cos (2 * PI * INR i / IZR (M - 1)))
           (seq 0 (Z.to_nat M)).

End Numpy.

(** ** The pieces of torch the layer uses *)

Record Tensor (A : Type) : Type := mkTensor {
  t_shape : list Z;
  t_data : list A
}.

Module Torch.

(** [torch.arange(start, 0.0)] for an integer start: start, start+1, ...
    below zero. *)
Definition arange_to_zero (start : Z) : list R :=
  map (fun i => IZR (start + Z.of_nat i)) (seq 0 (Z.to_nat (0 - start))).

(** [torch.clamp(x, min, max)] is [min(max(x, min), max)]. *)
Definition clamp (x lo hi : R) : R := Rmin (Rmax x lo) hi.

(** Broadcasting of a binary operation along the first dimension: the
    sizes agree, or one of them is 1. *)
Definition bcast2 {A B C : Type} (f : A -> B -> C) (xs : list A)
  (ys : list B) : result (list C) :=
  if (length xs =? length ys)%nat then Ok (map2 f xs ys)
  else
    match xs, ys with
    | [x], _ => Ok (map (f x) ys)
    | _, [y] => Ok (map (fun x => f x y) xs)
    | _, _ => Raise RuntimeError
    end.

(** [torch.matmul] of an (m,1) column with a (1,h) row. *)
Definition matmul_col_row (col row : list R) : list (list R) :=
  map (fun c => map (fun t => c * t) row) col.

(** [torch.cat([a, b, c], dim=1)] of three matrices: the numbers of rows
    must agree. *)
Definition cat3_dim1 {A : Type} (a b c : list (list A))
  : result (list (list A)) :=
  if ((length a =? length b) && (length b =? length c))%nat
  then Ok (map2 (fun ab z => ab ++ z) (map2 (fun x y => x ++ y) a b) c)
  else Raise RuntimeError.

(** The shape [view] arrives at: at most one dimension may be -1, and is
    then inferred from the number of elements. *)
Definition infer_size (shape : list Z) (numel : Z) : result (list Z) :=
  if existsb (fun d => d <? -1)%Z shape then Raise RuntimeError
  else
    let ninf := count_occ Z.eq_dec shape (-1)%Z in
    let newsize := fold_right Z.mul 1%Z (filter (fun d => 0 <=? d)%Z shape) in
    if (1 <? ninf)%nat then Raise RuntimeError
    else if (ninf =? 0)%nat then
      if (numel =? newsize)%Z then Ok shape else Raise RuntimeError
    else if ((0 <? newsize) && (numel mod newsize =? 0))%Z then
      Ok (map (fun d => if (d =? -1)%Z then (numel / newsize)%Z else d) shape)
    else Raise RuntimeError.

(** [m.view(shape)] of a contiguous matrix given by its rows. *)
Definition view {A : Type} (rows : list (list A)) (shape : list Z)
  : result (Tensor A) :=
  let data := concat rows in
  (s <- infer_size shape (Zlength' data) ;;
   Ok (mkTensor s data))%result.

(** [t[i][j][k]] of a 3-dimensional tensor, for indices within range. *)
Definition get3 {A : Type} (t : Tensor A) (i j k : Z) : option A :=
  match t_shape t with
  | [d0; d1; d2] =>
      if ((0 <=? i) && (i <? d0) && (0 <=? j) && (j <? d1)
          && (0 <=? k) && (k <? d2))%Z
      then nth_error (t_data t) (Z.to_nat ((i * d1 + j) * d2 + k))
      else None
  | _ => None
  end.

End Torch.

(** ** SincNetFilterConvLayer *)

(** The attributes [__init__] sets.  [self_id] is the identity of the
    Python object, the key under which [lru_cache] files the layer;
    [_low_hz] and [_band_hz] are the (m,1) parameter columns, [_window]
    and [_n] the registered buffers. *)
Record SincNetFilterConvLayer : Type := mkLayer {
  self_id : nat;
  _out_channels : Z;
  _kernel_size : Z;
  _stride : Z;
  _padding : Z;
  _dilation : Z;
  _sample_rate : Z;
  _min_low_hz : R;
  _min_band_hz : R;
  _low_hz : list R;
  _band_hz : list R;
  _window : list R;
  _n : list R
}.

(** A parameter update: both columns are replaced, everything else (the
    object's identity included) is kept.  The columns may have any number
    of rows, as an assignment to the attribute allows. *)
Definition set_params (self : SincNetFilterConvLayer) (low_hz band_hz : list R)
  : SincNetFilterConvLayer :=
  {| self_id := self_id self;
     _out_channels := _out_channels self;
     _kernel_size := _kernel_size self;
     _stride := _stride self;
     _padding := _padding self;
     _dilation := _dilation self;
     _sample_rate := _sample_rate self;
     _min_low_hz := _min_low_hz self;
     _min_band_hz := _min_band_hz self;
     _low_hz := low_hz;
     _band_hz := band_hz;
     _window := _window self;
     _n := _n self |}.

Module Layer.

Import Numpy Torch.
Local Open Scope result_scope.

(** The kernel length [__init__] keeps: even lengths are bumped by one. *)
Definition odd_kernel_size (kernel_size : Z) : Z :=
  if (kernel_size mod 2 =? 0)%Z then (kernel_size + 1)%Z else kernel_size.

(** [SincNetFilterConvLayer.__init__]; [id] is the identity the new
    object gets.  [requires_grad] does not enter any value and is left
    out. *)
Definition __init__ (id : nat) (out_channels kernel_size : Z)
  (sample_rate stride padding dilation : Z) (min_low_hz min_band_hz : R)
  (in_channels : Z) : result SincNetFilterConvLayer :=
  if negb (in_channels =? 1)%Z then Raise ValueError
  else
    let ks := odd_kernel_size kernel_size in
    let low_hz := 30 in
    let high_hz := IZR sample_rate / 2 - (min_low_hz + min_band_hz) in
    mel <- linspace (2595 * log10 (1 + low_hz / 700))
                    (2595 * log10 (1 + high_hz / 700))
                    (out_channels / 2 + 1)%Z ;;
    let hz := map (fun m => 700 * (pow10 (m / 2595) - 1)) mel in
    Ok {| self_id := id;
          _out_channels := out_channels;
          _kernel_size := ks;
          _stride := stride;
          _padding := padding;
          _dilation := dilation;
          _sample_rate := sample_rate;
          _min_low_hz := min_low_hz;
          _min_band_hz := min_band_hz;
          _low_hz := removelast hz;
          _band_hz := diff hz;
          _window := firstn (Z.to_nat (ks / 2)) (hamming ks);
          _n := map (fun a => 2 * PI * a / IZR sample_rate)
                    (arange_to_zero (- (ks / 2))) |}.

Section Synthesis.

Variable self : SincNetFilterConvLayer.

Definition nyquist : R := IZR (_sample_rate self) / 2.

(** [low = self._min_low_hz + torch.abs(self._low_hz)] *)
Definition low : list R :=
  map (fun p => _min_low_hz self + Rabs p) (_low_hz self).

(** [low + self._min_band_hz + torch.abs(self._band_hz)], the argument
    of the clamp. *)
Definition pre_high : result (list R) :=
  bcast2 Rplus (map (fun lo => lo + _min_band_hz self) low)
               (map Rabs (_band_hz self)).

(** [high = torch.clamp(..., self._min_low_hz, self._sample_rate/2)] *)
Definition high : result (list R) :=
  pre <- pre_high ;;
  Ok (map (fun x => clamp x (_min_low_hz self) nyquist) pre).

(** [band = (high-low)[:,0]] *)
Definition band : result (list R) :=
  hi <- high ;;
  bcast2 Rminus hi low.

Definition f_times_t_low : list (list R) := matmul_col_row low (_n self).

Definition f_times_t_high : result (list (list R)) :=
  hi <- high ;;
  Ok (matmul_col_row hi (_n self)).

(** [((sin(f_times_t_high) - sin(f_times_t_low)) / (self._n/2)) * self._window] *)
Definition band_pass_left : result (list (list (option R))) :=
  fh <- f_times_t_high ;;
  d <- bcast2 (map2 Rminus) (map (map sin) fh) (map (map sin) f_times_t_low) ;;
  Ok (map (fun row =>
             map2 fmul_r (map2 fdiv row (map (fun t => t / 2) (_n self)))
                  (_window self)) d).

(** [2 * band.view(-1, 1)] *)
Definition band_pass_center : result (list (list (option R))) :=
  bd <- band ;;
  Ok (map (fun b => [Some (2 * b)]) bd).

(** [torch.flip(band_pass_left, dims=[1])] *)
Definition band_pass_right : result (list (list (option R))) :=
  l <- band_pass_left ;;
  Ok (map (@rev (option R)) l).

(** The matrix [band_pass] as it stands before the final [view]: the
    concatenation, divided by [2*band[:,None]]. *)
Definition band_pass : result (list (list (option R))) :=
  bd <- band ;;
  l <- band_pass_left ;;
  c <- band_pass_center ;;
  r <- band_pass_right ;;
  bp <- cat3_dim1 l c r ;;
  Ok (map2 (fun row b => map (fun q => fdiv_r q (2 * b)) row) bp bd).

(** The body of the [filters] property. *)
Definition filters_body : result (Tensor (option R)) :=
  bp <- band_pass ;;
  view bp [_out_channels self; 1%Z; _kernel_size self].

End Synthesis.

(** [@lru_cache(maxsize=1)] on [filters]: one slot for the whole class,
    filed under the identity of [self]; a call that raises stores
    nothing. *)
Definition FiltersCache : Type := option (nat * Tensor (option R)).

(** A computation that reads and updates the cache and may raise. *)
Definition M (A : Type) : Type := FiltersCache -> result A * FiltersCache.

Definition ret {A : Type} (a : A) : M A := fun c => (Ok a, c).

Definition lift {A : Type} (r : result A) : M A := fun c => (r, c).

Definition mbind {A B : Type} (m : M A) (k : A -> M B) : M B :=
  fun c =>
    match m c with
    | (Ok a, c') => k a c'
    | (Raise e, c') => (Raise e, c')
    end.

(** The [filters] property as the callers see it. *)
Definition filters (self : SincNetFilterConvLayer) : M (Tensor (option R)) :=
  fun c =>
    let miss :=
      match filters_body self with
      | Ok v => (Ok v, Some (self_id self, v))
      | Raise e => (Raise e, c)
      end in
    match c with
    | Some (key, v) => if (key =? self_id self)%nat then (Ok v, c) else miss
    | None => miss
    end.

End Layer.


(** ** SincNet *)

(** The library modules the pipeline is built from, reduced to what decides
    the shape of their output.  What their constructors validate about
    sizes is outside the model: they are plain records here. *)
Record InstanceNorm1d : Type := mkInstanceNorm1d {
  num_features : Z
}.

Record MaxPool1d : Type := mkMaxPool1d {
  pool_kernel : Z;
  pool_stride_ : Z
}.

Inductive ConvModule : Type :=
| SincConv (layer : SincNetFilterConvLayer)
| Conv1d (in_channels out_channels kernel_size : Z).

Record SincNet : Type := mkSincNet {
  wav_norm1d : InstanceNorm1d;
  conv1d : list ConvModule;
  pool1d : list MaxPool1d;
  norm1d : list InstanceNorm1d
}.

(** The keyword arguments of [SincNet.__init__]. *)
Record SincNetArgs : Type := mkSincNetArgs {
  num_sinc_filters : Z;
  sinc_filter_length : Z;
  num_conv_filters : Z;
  conv_filter_length : Z;
  pool_kernel_size : Z;
  pool_stride : Z;
  sample_rate : Z;
  sinc_filter_stride : Z;
  sinc_filter_padding : Z;
  sinc_filter_dilation : Z;
  min_low_hz : R;
  min_band_hz : R;
  sinc_filter_in_channels : Z;
  num_wavform_channels : Z
}.

(** The defaults of the signature. *)
Definition default_args : SincNetArgs :=
  {| num_sinc_filters := 80;
     sinc_filter_length := 251;
     num_conv_filters := 60;
     conv_filter_length := 5;
     pool_kernel_size := 3;
     pool_stride := 3;
     sample_rate := 16000;
     sinc_filter_stride := 10;
     sinc_filter_padding := 0;
     sinc_filter_dilation := 1;
     min_low_hz := 50;
     min_band_hz := 50;
     sinc_filter_in_channels := 1;
     num_wavform_channels := 1 |}.

(** The defaults with some keyword arguments given. *)
Definition with_sample_rate (a : SincNetArgs) (sr : Z) : SincNetArgs :=
  {| num_sinc_filters := num_sinc_filters a;
     sinc_filter_length := sinc_filter_length a;
     num_conv_filters := num_conv_filters a;
     conv_filter_length := conv_filter_length a;
     pool_kernel_size := pool_kernel_size a;
     pool_stride := pool_stride a;
     sample_rate := sr;
     sinc_filter_stride := sinc_filter_stride a;
     sinc_filter_padding := sinc_filter_padding a;
     sinc_filter_dilation := sinc_filter_dilation a;
     min_low_hz := min_low_hz a;
     min_band_hz := min_band_hz a;
     sinc_filter_in_channels := sinc_filter_in_channels a;
     num_wavform_channels := num_wavform_channels a |}.

Definition with_floors (a : SincNetArgs) (mlo mb : R) : SincNetArgs :=
  {| num_sinc_filters := num_sinc_filters a;
     sinc_filter_length := sinc_filter_length a;
     num_conv_filters := num_conv_filters a;
     conv_filter_length := conv_filter_length a;
     pool_kernel_size := pool_kernel_size a;
     pool_stride := pool_stride a;
     sample_rate := sample_rate a;
     sinc_filter_stride := sinc_filter_stride a;
     sinc_filter_padding := sinc_filter_padding a;
     sinc_filter_dilation := sinc_filter_dilation a;
     min_low_hz := mlo;
     min_band_hz := mb;
     sinc_filter_in_channels := sinc_filter_in_channels a;
     num_wavform_channels := num_wavform_channels a |}.

Definition with_in_channels (a : SincNetArgs) (ic : Z) : SincNetArgs :=
  {| num_sinc_filters := num_sinc_filters a;
     sinc_filter_length := sinc_filter_length a;
     num_conv_filters := num_conv_filters a;
     conv_filter_length := conv_filter_length a;
     pool_kernel_size := pool_kernel_size a;
     pool_stride := pool_stride a;
     sample_rate := sample_rate a;
     sinc_filter_stride := sinc_filter_stride a;
     sinc_filter_padding := sinc_filter_padding a;
     sinc_filter_dilation := sinc_filter_dilation a;
     min_low_hz := min_low_hz a;
     min_band_hz := min_band_hz a;
     sinc_filter_in_channels := ic;
     num_wavform_channels := num_wavform_channels a |}.

Module Net.

Import Torch Layer.
Local Open Scope Z_scope.

(** [SincNet.__init__]; [id] is the identity of the analytic layer it
    creates. *)
Definition __init__ (id : nat) (a : SincNetArgs) : result SincNet :=
  if negb (sample_rate a =? 16000) then Raise NotImplementedError
  else
    (sinc <- Layer.__init__ id (num_sinc_filters a) (sinc_filter_length a)
               (sample_rate a) (sinc_filter_stride a) (sinc_filter_padding a)
               (sinc_filter_dilation a) (min_low_hz a) (min_band_hz a)
               (sinc_filter_in_channels a) ;;
     Ok {| wav_norm1d := mkInstanceNorm1d (num_wavform_channels a);
           conv1d :=
             [ SincConv sinc;
               Conv1d (num_sinc_filters a) (num_conv_filters a)
                      (conv_filter_length a);
               Conv1d (num_conv_filters a) (num_conv_filters a)
                      (conv_filter_length a) ];
           pool1d :=
             [ mkMaxPool1d (pool_kernel_size a) (pool_stride a);
               mkMaxPool1d (pool_kernel_size a) (pool_stride a);
               mkMaxPool1d (pool_kernel_size a) (pool_stride a) ];
           norm1d :=
             [ mkInstanceNorm1d (num_sinc_filters a);
               mkInstanceNorm1d (num_conv_filters a);
               mkInstanceNorm1d (num_conv_filters a) ] |})%result.

(** Output length of a 1-D convolution, as the library documents it. *)
Definition conv_out_len (len k stride padding dilation : Z) : Z :=
  (len + 2 * padding - dilation * (k - 1) - 1) / stride + 1.

(** Shape of [F.conv1d(input, weight, stride, padding, dilation)]. *)
Definition F_conv1d (input weight : list Z) (stride padding dilation : Z)
  : result (list Z) :=
  match input, weight with
  | [batch; c_in; len], [c_out; c_w; k] =>
      if negb (c_in =? c_w) then Raise RuntimeError
      else if (stride <=? 0) || (dilation <=? 0) || (padding <? 0)
      then Raise RuntimeError
      else if len + 2 * padding <? dilation * (k - 1) + 1
      then Raise RuntimeError
      else Ok [batch; c_out; conv_out_len len k stride padding dilation]
  | _, _ => Raise RuntimeError
  end.

(** Shape of [nn.MaxPool1d(kernel, stride=stride)(input)]. *)
Definition MaxPool1d_forward (p : MaxPool1d) (input : list Z) : result (list Z) :=
  match input with
  | [batch; c; len] =>
      if (pool_kernel p <=? 0) || (pool_stride_ p <=? 0) then Raise RuntimeError
      else if len <? pool_kernel p then Raise RuntimeError
      else Ok [batch; c; conv_out_len len (pool_kernel p) (pool_stride_ p) 0 1]
  | _ => Raise RuntimeError
  end.

(** Shape of [nn.InstanceNorm1d(num_features, affine=True)(input)]. *)
Definition InstanceNorm1d_forward (n : InstanceNorm1d) (input : list Z)
  : result (list Z) :=
  match input with
  | [batch; c; len] =>
      if negb (c =? num_features n) then Raise ValueError else Ok input
  | _ => Raise ValueError
  end.

Section Forward.

(** What the analytic layer convolves with: the shape of its kernel bank. *)
Variable kernel_shape : SincNetFilterConvLayer -> M (list Z).

(** [conv1d(outputs)] for one entry of [self.conv1d];
    [SincNetFilterConvLayer.forward] for the first. *)
Definition conv_forward (m : ConvModule) (outputs : list Z) : M (list Z) :=
  match m with
  | SincConv l =>
      mbind (kernel_shape l) (fun w =>
        lift (F_conv1d outputs w (_stride l) (_padding l) (_dilation l)))
  | Conv1d i o k => lift (F_conv1d outputs [o; i; k] 1 0 1)
  end.

(** The loop over [zip(self.conv1d, self.pool1d, self.norm1d)]. *)
Fixpoint stages (l : list (ConvModule * (MaxPool1d * InstanceNorm1d)))
  (outputs : list Z) : M (list Z) :=
  match l with
  | [] => ret outputs
  | (conv, (pool, norm)) :: l' =>
      mbind (conv_forward conv outputs) (fun o1 =>
      mbind (lift (MaxPool1d_forward pool o1)) (fun o2 =>
      mbind (lift (InstanceNorm1d_forward norm o2)) (fun o3 =>
      stages l' o3)))
  end.

Definition forward_with (self : SincNet) (waveforms : list Z) : M (list Z) :=
  mbind (lift (InstanceNorm1d_forward (wav_norm1d self) waveforms))
        (fun outputs =>
           stages (combine (conv1d self) (combine (pool1d self) (norm1d self)))
                  outputs).

End Forward.

(** [SincNet.forward], on shapes: the analytic layer reads its [filters]
    property. *)
Definition forward : SincNet -> list Z -> M (list Z) :=
  forward_with (fun l => mbind (filters l) (fun w => ret (t_shape w))).



End Net.


(** ** The synthesis, filter by filter

    The same computation read row by row: what [filters] does to one
    (broadcast) pair of raw parameters.  These definitions are proof
    devices; [Layer.band_pass_rows] below shows that they describe the
    rows of [Layer.band_pass]. *)

Module PerFilter.

Import Torch Layer.

Section Row.

Variable self : SincNetFilterConvLayer.

(** The parameter columns paired up as broadcasting pairs them. *)
Definition raw_pairs : result (list (R * R)) :=
  bcast2 pair (_low_hz self) (_band_hz self).

Definition lowf (p : R) : R := _min_low_hz self + Rabs p.

Definition pre_highf (p b : R) : R := lowf p + _min_band_hz self + Rabs b.

Definition highf (p b : R) : R :=
  clamp (pre_highf p b) (_min_low_hz self) (nyquist self).

Definition bandf (p b : R) : R := highf p b - lowf p.

Definition left_row (lo hi : R) : list (option R) :=
  map2 fmul_r
    (map2 fdiv
       (map2 Rminus (map sin (map (fun t => hi * t) (_n self)))
                    (map sin (map (fun t => lo * t) (_n self))))
       (map (fun t => t / 2) (_n self)))
    (_window self).

Definition kernel_row (lo hi : R) : list (option R) :=
  map (fun q => fdiv_r q (2 * (hi - lo)))
      ((left_row lo hi ++ [Some (2 * (hi - lo))]) ++ rev (left_row lo hi)).

End Row.

(** A layer whose kernel length and buffers are as [__init__] leaves
    them, for a kernel length of at least 1. *)
Definition built_shape (self : SincNetFilterConvLayer) : Prop :=
  (1 <= _kernel_size self)%Z
  /\ (_kernel_size self = 2 * (_kernel_size self / 2) + 1)%Z
  /\ length (_window self) = Z.to_nat (_kernel_size self / 2)
  /\ length (_n self) = Z.to_nat (_kernel_size self / 2).


End PerFilter.

(** ** The synthesis formula in the words of the specification *)

Module Spec.

(** The fixed negative time axis: [t = k / sample_rate] for
    [k = -(kernel_size // 2), ..., -1]. *)
Definition time_axis (kernel_size sample_rate : Z) : list R :=
  map (fun k => k / IZR sample_rate) (Torch.arange_to_zero (- (kernel_size / 2))).

(** One tap of the left half:
    [(sin(2 pi high t) - sin(2 pi low t)) / (pi t)], times the window. *)
Definition left_tap (high low t w : R) : option R :=
  fmul_r (fdiv (sin (2 * PI * high * t) - sin (2 * PI * low * t)) (PI * t)) w.

Definition left_half (high low : R) (ts ws : list R) : list (option R) :=
  map2 (left_tap high low) ts ws.

(** Left, centre [2 band], right as the reversed left, all divided by
    [2 band]. *)
Definition kernel (high low : R) (ts ws : list R) : list (option R) :=
  let band := high - low in
  map (fun q => fdiv_r q (2 * band))
      ((left_half high low ts ws ++ [Some (2 * band)])
         ++ rev (left_half high low ts ws)).

End Spec.

(** ** The Mel-spaced initialisation, boundary by boundary *)

Module MelInit.

(** [2595 * np.log10(1 + f / 700)], "Convert Hz to Mel". *)
Definition hz_to_mel (f : R) : R := 2595 * Numpy.log10 (1 + f / 700).

(** [700 * (10 ** (mel / 2595) - 1)], "Convert Mel to Hz". *)
Definition mel_to_hz (m : R) : R := 700 * (Numpy.pow10 (m / 2595) - 1).

(** The upper end of the initial boundaries,
    [self._sample_rate / 2 - (self._min_low_hz + self._min_band_hz)]. *)
Definition high_hz (sample_rate : Z) (min_low_hz min_band_hz : R) : R :=
  IZR sample_rate / 2 - (min_low_hz + min_band_hz).

(** Entry [i] of [hz], the [out_channels // 2 + 1] boundary frequencies
    [__init__] computes. *)
Definition boundary (out_channels sample_rate : Z) (min_low_hz min_band_hz : R)
  (i : nat) : R :=
  let start := hz_to_mel 30 in
  let stop := hz_to_mel (high_hz sample_rate min_low_hz min_band_hz) in
  mel_to_hz (start + INR i * ((stop - start) / IZR (out_channels / 2 + 1 - 1))).

End MelInit.

(** ** SincNetFilterConvLayer.forward *)

Module Forward.

Import Torch Layer.

(** Sums of scalars that may be non-finite. *)
Definition oadd (a b : option R) : option R :=
  match a, b with
  | Some x, Some y => Some (x + y)
  | _, _ => None
  end.

Definition osum (l : list (option R)) : option R := fold_right oadd (Some 0) l.

(** Sample [j] of channel [c] of item [b] of the input; the zero padding
    outside the signal. *)
Definition sample (input : Tensor R) (b c j : Z) : R :=
  match get3 input b c j with
  | Some x => x
  | None => 0
  end.

Definition weight_at (weight : Tensor (option R)) (o c k : Z) : option R :=
  match get3 weight o c k with
  | Some q => q
  | None => None
  end.

(** The products summed into [output[b][o][t]]. *)
Definition conv_terms (input : Tensor R) (weight : Tensor (option R))
  (stride padding dilation : Z) (c_w k_w : Z) (b o t : Z) : list (option R) :=
  flat_map
    (fun c =>
       map (fun k =>
              fmul_r (weight_at weight o (Z.of_nat c) (Z.of_nat k))
                     (sample input b (Z.of_nat c)
                        (t * stride + Z.of_nat k * dilation - padding)))
           (seq 0 (Z.to_nat k_w)))
    (seq 0 (Z.to_nat c_w)).

(** [F.conv1d(input, weight, stride, padding, dilation)]: the shape and
    the errors of [Net.F_conv1d], the entries in row-major order. *)
Definition F_conv1d_values (input : Tensor R) (weight : Tensor (option R))
  (stride padding dilation : Z) : result (Tensor (option R)) :=
  bind (Net.F_conv1d (t_shape input) (t_shape weight) stride padding dilation)
    (fun s =>
       match t_shape weight, s with
       | [_; c_w; k_w], [batch; c_out; len] =>
           Ok (mkTensor s
                 (flat_map
                    (fun b =>
                       flat_map
                         (fun o =>
                            map (fun t =>
                                   osum (conv_terms input weight stride padding
                                           dilation c_w k_w (Z.of_nat b)
                                           (Z.of_nat o) (Z.of_nat t)))
                                (seq 0 (Z.to_nat len)))
                         (seq 0 (Z.to_nat c_out)))
                    (seq 0 (Z.to_nat batch))))
       | _, _ => Raise RuntimeError
       end).

(** [.abs_()] *)
Definition abs_ (t : Tensor (option R)) : Tensor (option R) :=
  mkTensor (t_shape t) (map (option_map Rabs) (t_data t)).

(** [SincNetFilterConvLayer.forward]. *)
Definition forward (self : SincNetFilterConvLayer) (waveforms : Tensor R)
  : M (Tensor (option R)) :=
  mbind (filters self) (fun w =>
    lift (bind (F_conv1d_values waveforms w (_stride self) (_padding self)
                  (_dilation self))
               (fun y => Ok (abs_ y)))).

(** The waveform with every sample negated. *)
Definition negated (t : Tensor R) : Tensor R :=
  mkTensor (t_shape t) (map Ropp (t_data t)).

End Forward.

(** * Properties *)

Unset Implicit Arguments.

(** ** Lists and broadcasting *)

Lemma map2_length {A B C : Type} (f : A -> B -> C) (xs : list A) (ys : list B) :
  length xs = length ys -> length (map2 f xs ys) = length xs.
Proof.
  revert ys; induction xs as [|x xs IH]; intros [|y ys]; simpl; try easy.
  intros H; f_equal; apply IH; congruence.
Qed.

Lemma map2_map_same {A C D E : Type} (f : C -> D -> E) (g : A -> C) (h : A -> D) (l : list A) :
  map2 f (map g l) (map h l) = map (fun a => f (g a) (h a)) l.
Proof. induction l; simpl; congruence. Qed.

Lemma map2_pair_map {A B C D E : Type} (f : C -> D -> E) (g : A -> C) (h : B -> D)
  (xs : list A) (ys : list B) :
  map2 f (map g xs) (map h ys)
  = map (fun p => f (g (fst p)) (h (snd p))) (map2 pair xs ys).
Proof.
  revert ys; induction xs as [|x xs IH]; intros [|y ys]; simpl; try easy.
  now rewrite IH.
Qed.

Lemma map2_again_l {A B C D E : Type} (f : C -> D -> E) (g : A * B -> C) (h : A -> D)
  (xs : list A) (ys : list B) :
  length xs = length ys ->
  map2 f (map g (map2 pair xs ys)) (map h xs)
  = map (fun p => f (g p) (h (fst p))) (map2 pair xs ys).
Proof.
  revert ys; induction xs as [|x xs IH]; intros [|y ys]; simpl; try easy.
  intros H; f_equal; apply IH; congruence.
Qed.

Lemma map2_again_pairl {A B C D E : Type} (f : C -> D -> E) (g : A * B -> C) (h : A -> D)
  (xs : list A) (y : B) :
  map2 f (map g (map (fun x => (x, y)) xs)) (map h xs)
  = map (fun p => f (g p) (h (fst p))) (map (fun x => (x, y)) xs).
Proof. induction xs; simpl; congruence. Qed.

Section Broadcast.

Import Torch.

Lemma bcast2_same_length {A B C : Type} (f : A -> B -> C) (xs : list A) (ys : list B) :
  length xs = length ys -> bcast2 f xs ys = Ok (map2 f xs ys).
Proof. intros H; unfold bcast2; now rewrite H, Nat.eqb_refl. Qed.

(** Broadcasting an operation over mapped columns is the operation mapped
    over the broadcast pairs. *)
Lemma bcast2_map {A B C D E : Type} (f : C -> D -> E) (g : A -> C) (h : B -> D)
  (xs : list A) (ys : list B) :
  bcast2 f (map g xs) (map h ys)
  = bind (bcast2 pair xs ys)
         (fun ps => Ok (map (fun p => f (g (fst p)) (h (snd p))) ps)).
Proof.
  unfold bcast2; rewrite !length_map.
  destruct (length xs =? length ys)%nat; simpl.
  - now rewrite map2_pair_map.
  - destruct xs as [|x [|x' xs]], ys as [|y [|y' ys]]; simpl; try reflexivity;
      try (now rewrite !map_map).
Qed.

(** Broadcasting a column derived from the pairs against the left column
    once more pairs every row with its own left entry. *)
Lemma bcast2_again_l {A B C D E : Type} (f : C -> D -> E) (g : A * B -> C) (h : A -> D)
  (xs : list A) (ys : list B) (ps : list (A * B)) :
  bcast2 pair xs ys = Ok ps ->
  bcast2 f (map g ps) (map h xs)
  = Ok (map (fun p => f (g p) (h (fst p))) ps).
Proof.
  unfold bcast2 at 1; destruct (length xs =? length ys)%nat eqn:El.
  - intros [= <-]; apply Nat.eqb_eq in El.
    rewrite bcast2_same_length
      by (now rewrite !length_map, map2_length).
    now rewrite map2_again_l.
  - destruct xs as [|x [|x' xs]], ys as [|y [|y' ys]]; simpl in *;
      try discriminate; intros [= <-]; try reflexivity.
    + unfold bcast2; simpl. now rewrite !map_map.
    + rewrite bcast2_same_length by (simpl; now rewrite !length_map).
      simpl. do 3 f_equal.
      apply (map2_again_pairl f g h xs y).
Qed.

End Broadcast.

(** ** The rows of the synthesis *)

Section Rows.

Import Torch Layer PerFilter.
Local Open Scope result_scope.

Variable self : SincNetFilterConvLayer.

Lemma pre_high_rows :
  pre_high self
  = (ps <- raw_pairs self ;;
     Ok (map (fun p => pre_highf self (fst p) (snd p)) ps)).
Proof.
  unfold pre_high, low, raw_pairs. rewrite map_map.
  apply (bcast2_map Rplus (fun p => _min_low_hz self + Rabs p + _min_band_hz self)
           Rabs).
Qed.

Lemma high_rows :
  high self
  = (ps <- raw_pairs self ;;
     Ok (map (fun p => highf self (fst p) (snd p)) ps)).
Proof.
  unfold high. rewrite pre_high_rows.
  destruct (raw_pairs self); simpl; [|reflexivity].
  now rewrite map_map.
Qed.

Lemma band_rows :
  band self
  = (ps <- raw_pairs self ;;
     Ok (map (fun p => bandf self (fst p) (snd p)) ps)).
Proof.
  unfold band. rewrite high_rows.
  destruct (raw_pairs self) as [ps|e] eqn:E; simpl; [|reflexivity].
  unfold low.
  apply (bcast2_again_l Rminus (fun p => highf self (fst p) (snd p))
           (lowf self) _ _ _ E).
Qed.

Lemma band_pass_left_rows :
  band_pass_left self
  = (ps <- raw_pairs self ;;
     Ok (map (fun p => left_row self (lowf self (fst p))
                         (highf self (fst p) (snd p))) ps)).
Proof.
  unfold band_pass_left, f_times_t_high, f_times_t_low. rewrite high_rows.
  destruct (raw_pairs self) as [ps|e] eqn:E; simpl; [|reflexivity].
  unfold matmul_col_row, low. rewrite !map_map.
  rewrite (bcast2_again_l (map2 Rminus)
             (fun p => map sin (map (fun t => highf self (fst p) (snd p) * t)
                                   (_n self)))
             (fun x => map sin (map (fun t => (_min_low_hz self + Rabs x) * t)
                                   (_n self))) _ _ _ E).
  simpl. now rewrite map_map.
Qed.

Lemma cat3_rows {A B : Type} (f g h : A -> list B) (l : list A) :
  cat3_dim1 (map f l) (map g l) (map h l)
  = Ok (map (fun a => (f a ++ g a) ++ h a) l).
Proof.
  unfold cat3_dim1. rewrite !length_map, Nat.eqb_refl. simpl.
  now rewrite map2_map_same, map2_map_same.
Qed.

(** Every row of [band_pass] is [kernel_row] of its filter's cutoffs. *)
Lemma band_pass_rows :
  band_pass self
  = (ps <- raw_pairs self ;;
     Ok (map (fun p => kernel_row self (lowf self (fst p))
                         (highf self (fst p) (snd p))) ps)).
Proof.
  unfold band_pass, band_pass_center, band_pass_right.
  rewrite band_rows, band_pass_left_rows.
  destruct (raw_pairs self) as [ps|e] eqn:E; simpl; [|reflexivity].
  rewrite !map_map.
  rewrite (cat3_rows
             (fun p => left_row self (lowf self (fst p))
                         (highf self (fst p) (snd p)))
             (fun p => [Some (2 * bandf self (fst p) (snd p))])
             (fun p => rev (left_row self (lowf self (fst p))
                              (highf self (fst p) (snd p))))).
  simpl. now rewrite map2_map_same.
Qed.

End Rows.

(** ** What the constructor establishes *)

Section Constructor.

Import Numpy Torch Layer.

Lemma diff_length (a : list R) : length (diff a) = pred (length a).
Proof.
  induction a as [|x [|y tl] IH]; simpl in *; try reflexivity.
  now rewrite IH.
Qed.

Lemma length_removelast' {A : Type} (l : list A) :
  length (removelast l) = pred (length l).
Proof.
  induction l as [|x [|y tl] IH]; simpl in *; try reflexivity.
  now rewrite IH.
Qed.

Lemma hamming_length (m : Z) : length (hamming m) = Z.to_nat m.
Proof.
  unfold hamming.
  destruct (m <? 1)%Z eqn:E1; [apply Z.ltb_lt in E1; simpl; lia|].
  destruct (m =? 1)%Z eqn:E2; [apply Z.eqb_eq in E2; subst; reflexivity|].
  now rewrite length_map, length_seq.
Qed.

Lemma arange_to_zero_length (start : Z) :
  length (arange_to_zero start) = Z.to_nat (- start).
Proof.
  unfold arange_to_zero. rewrite length_map, length_seq. f_equal; lia.
Qed.

Lemma odd_kernel_size_odd (ks : Z) :
  (odd_kernel_size ks = 2 * (odd_kernel_size ks / 2) + 1)%Z.
Proof.
  unfold odd_kernel_size.
  destruct (ks mod 2 =? 0)%Z eqn:E.
  - apply Z.eqb_eq in E.
    pose proof (Z.div_mod ks 2 ltac:(lia)) as H.
    replace ((ks + 1) / 2)%Z with (ks / 2)%Z; [lia|].
    apply Z.div_unique with (r := 1%Z); lia.
  - apply Z.eqb_neq in E.
    pose proof (Z.div_mod ks 2 ltac:(lia)) as H.
    pose proof (Z.mod_pos_bound ks 2 ltac:(lia)) as Hb.
    lia.
Qed.

Lemma odd_kernel_size_pos (ks : Z) :
  (1 <= ks -> 1 <= odd_kernel_size ks)%Z.
Proof. unfold odd_kernel_size; destruct (ks mod 2 =? 0)%Z; lia. Qed.

(** The layer [__init__] returns, attribute by attribute. *)
Lemma init_inv id oc ks sr st pad dil mlo mb ic l :
  __init__ id oc ks sr st pad dil mlo mb ic = Ok l ->
  ic = 1%Z /\ (0 <= oc / 2 + 1)%Z
  /\ self_id l = id
  /\ _out_channels l = oc
  /\ _kernel_size l = odd_kernel_size ks
  /\ _stride l = st /\ _padding l = pad /\ _dilation l = dil
  /\ _sample_rate l = sr
  /\ _min_low_hz l = mlo /\ _min_band_hz l = mb
  /\ length (_low_hz l) = Z.to_nat (oc / 2)
  /\ length (_band_hz l) = Z.to_nat (oc / 2)
  /\ _window l = firstn (Z.to_nat (odd_kernel_size ks / 2))
                        (hamming (odd_kernel_size ks))
  /\ _n l = map (fun a => 2 * PI * a / IZR sr)
                (arange_to_zero (- (odd_kernel_size ks / 2))).
Proof.
  unfold __init__.
  destruct (ic =? 1)%Z eqn:Eic; simpl; [|discriminate].
  apply Z.eqb_eq in Eic.
  unfold linspace.
  destruct (oc / 2 + 1 <? 0)%Z eqn:En; simpl; [discriminate|].
  apply Z.ltb_ge in En.
  intros [= <-]; simpl.
  repeat split; try assumption.
  - rewrite length_removelast', !length_map, length_seq. lia.
  - rewrite diff_length, !length_map, length_seq. lia.
Qed.

Lemma init_ok id oc ks sr st pad dil mlo mb :
  (0 <= oc / 2 + 1)%Z ->
  exists l, __init__ id oc ks sr st pad dil mlo mb 1 = Ok l.
Proof.
  intros H. unfold __init__, linspace. simpl.
  destruct (oc / 2 + 1 <? 0)%Z eqn:En; [apply Z.ltb_lt in En; lia|].
  simpl. eexists; reflexivity.
Qed.

(** Both buffers have [kernel_size // 2] entries. *)
Lemma init_buffers id oc ks sr st pad dil mlo mb ic l :
  __init__ id oc ks sr st pad dil mlo mb ic = Ok l ->
  length (_window l) = Z.to_nat (_kernel_size l / 2)
  /\ length (_n l) = Z.to_nat (_kernel_size l / 2).
Proof.
  intros H. apply init_inv in H.
  destruct H as (_ & _ & _ & _ & Hks & _ & _ & _ & _ & _ & _ & _ & _ & Hw & Hn).
  rewrite Hw, Hn, Hks. split.
  - rewrite length_firstn, hamming_length.
    pose proof (odd_kernel_size_odd ks). lia.
  - rewrite length_map, arange_to_zero_length. f_equal; lia.
Qed.

End Constructor.

(** ** Shapes: rows, [view] and the kernel bank *)

Section Shapes.

Import Torch Layer PerFilter.
Local Open Scope result_scope.

Lemma map2_length_min {A B C : Type} (f : A -> B -> C) xs ys :
  length (map2 f xs ys) = Nat.min (length xs) (length ys).
Proof.
  revert ys; induction xs as [|x xs IH]; intros [|y ys]; simpl; auto.
Qed.

Lemma left_row_length self lo hi :
  length (left_row self lo hi)
  = Nat.min (length (_n self)) (length (_window self)).
Proof.
  unfold left_row. rewrite !map2_length_min, !length_map. lia.
Qed.

Lemma kernel_row_length self lo hi :
  length (kernel_row self lo hi)
  = (2 * Nat.min (length (_n self)) (length (_window self)) + 1)%nat.
Proof.
  unfold kernel_row.
  rewrite length_map, !length_app, length_rev, left_row_length. simpl. lia.
Qed.

Lemma concat_uniform_length {A : Type} (n : nat) (rows : list (list A)) :
  Forall (fun r => length r = n) rows ->
  length (concat rows) = (length rows * n)%nat.
Proof.
  induction 1 as [|r rows Hr _ IH]; simpl; [reflexivity|].
  rewrite length_app, IH, Hr. reflexivity.
Qed.

Lemma init_built_shape id oc ks sr st pad dil mlo mb ic l lo bd :
  (1 <= ks)%Z ->
  __init__ id oc ks sr st pad dil mlo mb ic = Ok l ->
  built_shape (set_params l lo bd).
Proof.
  intros Hks H. pose proof (init_buffers _ _ _ _ _ _ _ _ _ _ _ H) as [Hw Hn].
  apply init_inv in H.
  destruct H as (_ & _ & _ & _ & Hk & _).
  unfold built_shape; simpl. rewrite Hw, Hn, Hk.
  repeat split; auto using odd_kernel_size_pos, odd_kernel_size_odd.
Qed.

Lemma set_params_same (l : SincNetFilterConvLayer) :
  set_params l (_low_hz l) (_band_hz l) = l.
Proof. destruct l; reflexivity. Qed.

Lemma built_row_length self lo hi :
  built_shape self ->
  Z.of_nat (length (kernel_row self lo hi)) = _kernel_size self.
Proof.
  intros (H1 & H2 & Hw & Hn).
  rewrite kernel_row_length, Hw, Hn, Nat.min_id. lia.
Qed.

(** [view(out_channels, 1, kernel_size)] for sizes that are not negative:
    the element count decides. *)
Lemma infer_size_3 (oc ks numel : Z) :
  (0 <= oc)%Z -> (0 <= ks)%Z ->
  infer_size [oc; 1%Z; ks] numel
  = if (numel =? oc * ks)%Z then Ok [oc; 1%Z; ks] else Raise RuntimeError.
Proof.
  intros Ho Hk. unfold infer_size. cbn -[Z.mul Z.ltb Z.leb].
  destruct (oc <? -1)%Z eqn:E1; [apply Z.ltb_lt in E1; lia|].
  destruct (ks <? -1)%Z eqn:E2; [apply Z.ltb_lt in E2; lia|].
  cbn -[Z.mul Z.leb].
  destruct (Z.eq_dec oc (-1)); [lia|].
  destruct (Z.eq_dec ks (-1)); [lia|].
  destruct (0 <=? oc)%Z eqn:E3; [|apply Z.leb_gt in E3; lia].
  destruct (0 <=? ks)%Z eqn:E4; [|apply Z.leb_gt in E4; lia].
  cbn -[Z.mul].
  replace (oc * (1 * (ks * 1)))%Z with (oc * ks)%Z by lia.
  reflexivity.
Qed.

(** The body of [filters] on a layer of built shape: the rows are the
    filters' kernels, and [view] goes through exactly when their number is
    [out_channels]. *)
Lemma filters_body_rows self ps :
  built_shape self -> (0 <= _out_channels self)%Z ->
  raw_pairs self = Ok ps ->
  filters_body self
  = if (Z.of_nat (length ps) =? _out_channels self)%Z
    then Ok (mkTensor [_out_channels self; 1%Z; _kernel_size self]
               (concat (map (fun p => kernel_row self (lowf self (fst p))
                                        (highf self (fst p) (snd p))) ps)))
    else Raise RuntimeError.
Proof.
  intros Hb Ho Hps. unfold filters_body. rewrite band_pass_rows, Hps. simpl.
  unfold view. rewrite infer_size_3 by (destruct Hb; lia).
  unfold Zlength'.
  rewrite (@concat_uniform_length _ (Z.to_nat (_kernel_size self))).
  2:{ apply Forall_forall. intros r Hr. apply in_map_iff in Hr.
      destruct Hr as (p & <- & _).
      rewrite <- (built_row_length self (lowf self (fst p))
                    (highf self (fst p) (snd p)) Hb).
      now rewrite Nat2Z.id. }
  rewrite length_map.
  destruct Hb as (H1 & _).
  replace (Z.of_nat (length ps * Z.to_nat (_kernel_size self)))
    with (Z.of_nat (length ps) * _kernel_size self)%Z by lia.
  destruct (Z.of_nat (length ps) =? _out_channels self)%Z eqn:E.
  - apply Z.eqb_eq in E. rewrite E, Z.eqb_refl. reflexivity.
  - apply Z.eqb_neq in E.
    destruct (_ =? _)%Z eqn:E'; [|reflexivity].
    apply Z.eqb_eq in E'. nia.
Qed.

(** A freshly constructed layer holds [out_channels // 2] rows of
    parameters, and its [filters] body cannot get past [view]. *)
Lemma fresh_filters_body_raises id oc ks sr st pad dil mlo mb ic l :
  (1 <= oc)%Z -> (1 <= ks)%Z ->
  __init__ id oc ks sr st pad dil mlo mb ic = Ok l ->
  filters_body l = Raise RuntimeError.
Proof.
  intros Ho Hk H.
  pose proof (init_built_shape _ _ _ _ _ _ _ _ _ _ _ (_low_hz l) (_band_hz l) Hk H) as Hb.
  rewrite set_params_same in Hb.
  apply init_inv in H.
  destruct H as (_ & _ & _ & Hoc & _ & _ & _ & _ & _ & _ & _ & Hl & Hbd & _).
  assert (Hps : raw_pairs l = Ok (map2 pair (_low_hz l) (_band_hz l))).
  { unfold raw_pairs. apply bcast2_same_length. congruence. }
  rewrite (filters_body_rows _ _ Hb ltac:(lia) Hps).
  rewrite map2_length by congruence.
  rewrite Hl, Hoc.
  destruct (_ =? _)%Z eqn:E; [|reflexivity].
  apply Z.eqb_eq in E.
  pose proof (Z.div_lt oc 2 ltac:(lia) ltac:(lia)).
  pose proof (Z.div_pos oc 2 ltac:(lia) ltac:(lia)).
  lia.
Qed.

End Shapes.

(** ** The shape of the kernel bank *)

Section KernelBank.

Import Torch Layer PerFilter.

(** The cached property on a layer the cache does not hold is its body. *)
Lemma filters_miss_none self :
  filters self None
  = match filters_body self with
    | Ok v => (Ok v, Some (self_id self, v))
    | Raise e => (Raise e, None)
    end.
Proof. reflexivity. Qed.

(** C1 (defect of the code): with the default sizes, 80 filters of length
    251, the constructor stores 80 // 2 = 40 rows of parameters, the
    synthesized matrix has 40 * 251 entries, and the final
    [view(80, 1, 251)] raises: [filters] returns no kernel bank of shape
    (80, 1, 251).  The kernel length itself is forced odd as claimed. *)
Theorem filters_default_sizes_raise :
  Layer.odd_kernel_size 250 = 251%Z
  /\ Layer.odd_kernel_size 251 = 251%Z
  /\ exists l,
       Layer.__init__ 0 80 251 16000 10 0 1 50 50 1 = Ok l
       /\ _out_channels l = 80%Z /\ _kernel_size l = 251%Z
       /\ length (_low_hz l) = 40%nat /\ length (_band_hz l) = 40%nat
       /\ Layer.filters_body l = Raise RuntimeError
       /\ Layer.filters l None = (Raise RuntimeError, None).
Proof.
  split; [reflexivity|]. split; [reflexivity|].
  destruct (init_ok 0 80 251 16000 10 0 1 50 50 ltac:(now vm_compute)) as [l Hl].
  exists l. split; [exact Hl|].
  pose proof (fresh_filters_body_raises 0 80 251 16000 10 0 1 50 50 1 l
                ltac:(lia) ltac:(lia) Hl) as Hr.
  apply init_inv in Hl.
  destruct Hl as (_ & _ & _ & Hoc & Hks & _ & _ & _ & _ & _ & _ & Hlo & Hbd & _).
  repeat split; try assumption.
  - now rewrite filters_miss_none, Hr.
Qed.

End KernelBank.

(** ** Symmetry of the kernels *)

Section Symmetry.

Import Torch Layer PerFilter.





End Symmetry.

Section SymmetryOfFilters.

Import Torch Layer PerFilter.


(** With as many parameter rows as [out_channels], the body of [filters]
    returns the kernel bank of shape (out_channels, 1, kernel_size). *)
Lemma filters_body_ok id oc ks sr st pad dil mlo mb ic l lo bd :
  (0 <= oc)%Z -> (1 <= ks)%Z ->
  __init__ id oc ks sr st pad dil mlo mb ic = Ok l ->
  length lo = length bd -> Z.of_nat (length lo) = oc ->
  let self := set_params l lo bd in
  filters_body self
  = Ok (mkTensor [oc; 1%Z; odd_kernel_size ks]
          (concat (map (fun p => kernel_row self (lowf self (fst p))
                                   (highf self (fst p) (snd p)))
                       (map2 pair lo bd)))).
Proof.
  intros Ho Hk Hl Hlen Hoc self.
  pose proof (init_built_shape _ _ _ _ _ _ _ _ _ _ _ lo bd Hk Hl) as Hb.
  apply init_inv in Hl.
  destruct Hl as (_ & _ & _ & Hoc' & Hks & _).
  assert (Hps : raw_pairs self = Ok (map2 pair lo bd)).
  { unfold raw_pairs, self; simpl. now apply bcast2_same_length. }
  assert (Hoc0 : (0 <= _out_channels self)%Z) by (unfold self; simpl; lia).
  rewrite (filters_body_rows self _ Hb Hoc0 Hps).
  rewrite map2_length by assumption.
  replace (_out_channels self) with oc by (unfold self; simpl; lia).
  replace (_kernel_size self) with (odd_kernel_size ks)
    by (unfold self; simpl; congruence).
  rewrite Hoc, Z.eqb_refl.
  reflexivity.
Qed.



End SymmetryOfFilters.

(** ** The effective cutoffs *)

Section Cutoffs.

Import Torch Layer PerFilter.
Local Open Scope result_scope.



Lemma clamp_mono x y lo hi : x <= y -> clamp x lo hi <= clamp y lo hi.
Proof.
  intros H. unfold clamp.
  apply Rle_min_compat_r. apply Rle_max_compat_r. exact H.
Qed.

Lemma clamp_above x lo hi : hi < x -> clamp x lo hi = hi.
Proof.
  intros H. unfold clamp. apply Rmin_right.
  apply Rle_trans with x; [lra | apply Rmax_l].
Qed.






Lemma Forall2_map_same {A B : Type} (P : B -> B -> Prop) (f g : A -> B) l :
  (forall a, P (f a) (g a)) -> Forall2 P (map f l) (map g l).
Proof. intros H. induction l; simpl; constructor; auto. Qed.

(** C9: with the raw parameters and everything else that enters the
    cutoffs held fixed, raising [min_band_hz] lowers no filter's bandwidth
    [band = high - low], and the bandwidths exist for the one setting
    exactly when they exist for the other. *)
Theorem band_monotone_in_min_band_hz (self1 self2 : SincNetFilterConvLayer) :
  _low_hz self1 = _low_hz self2 ->
  _band_hz self1 = _band_hz self2 ->
  _min_low_hz self1 = _min_low_hz self2 ->
  _sample_rate self1 = _sample_rate self2 ->
  _min_band_hz self1 <= _min_band_hz self2 ->
  is_ok (Layer.band self1) = is_ok (Layer.band self2)
  /\ forall bd1 bd2,
       Layer.band self1 = Ok bd1 -> Layer.band self2 = Ok bd2 ->
       Forall2 Rle bd1 bd2.
Proof.
  intros Hlo Hbd Hml Hsr Hmb.
  rewrite !band_rows.
  assert (Hps : raw_pairs self1 = raw_pairs self2)
    by (unfold raw_pairs; congruence).
  rewrite Hps.
  destruct (raw_pairs self2) as [ps|e]; simpl; split; try reflexivity;
    try discriminate.
  intros bd1 bd2 [= <-] [= <-].
  apply Forall2_map_same. intros [p b]; simpl.
  unfold bandf, highf, pre_highf, lowf, nyquist.
  rewrite Hml, Hsr.
  apply Rplus_le_compat_r. apply clamp_mono. lra.
Qed.

(** Two layers that differ in [min_band_hz] only, 50 against 80, with
    the same raw parameters 100 and 200. *)
Lemma band_monotone_in_min_band_hz_witness :
  exists l1 l2 w1 w2,
    Layer.__init__ 0 1 3 16000 1 0 1 50 50 1 = Ok l1
    /\ Layer.__init__ 1 1 3 16000 1 0 1 50 80 1 = Ok l2
    /\ _min_band_hz (set_params l1 [100] [200])
       <= _min_band_hz (set_params l2 [100] [200])
    /\ Layer.band (set_params l1 [100] [200]) = Ok [w1]
    /\ Layer.band (set_params l2 [100] [200]) = Ok [w2]
    /\ w1 <= w2.
Proof.
  destruct (init_ok 0 1 3 16000 1 0 1 50 50 ltac:(now vm_compute)) as [l1 Hl1].
  destruct (init_ok 1 1 3 16000 1 0 1 50 80 ltac:(now vm_compute)) as [l2 Hl2].
  set (self1 := set_params l1 [100] [200]).
  set (self2 := set_params l2 [100] [200]).
  pose proof Hl1 as Hf1. apply init_inv in Hf1.
  destruct Hf1 as (_ & _ & _ & _ & _ & _ & _ & _ & Hsr1 & Hml1 & Hmb1 & _).
  pose proof Hl2 as Hf2. apply init_inv in Hf2.
  destruct Hf2 as (_ & _ & _ & _ & _ & _ & _ & _ & Hsr2 & Hml2 & Hmb2 & _).
  assert (Hmb : _min_band_hz self1 <= _min_band_hz self2)
    by (unfold self1, self2; simpl; lra).
  destruct (band_monotone_in_min_band_hz self1 self2 eq_refl eq_refl
              ltac:(unfold self1, self2; simpl; congruence)
              ltac:(unfold self1, self2; simpl; congruence) Hmb) as [_ H].
  assert (Hb1 : band self1 = Ok [bandf self1 100 200])
    by (rewrite band_rows; reflexivity).
  assert (Hb2 : band self2 = Ok [bandf self2 100 200])
    by (rewrite band_rows; reflexivity).
  exists l1, l2, (bandf self1 100 200), (bandf self2 100 200).
  split; [exact Hl1|]. split; [exact Hl2|]. split; [exact Hmb|].
  split; [exact Hb1|]. split; [exact Hb2|].
  specialize (H _ _ Hb1 Hb2).
  inversion H; subst. assumption.
Defined.

End Cutoffs.

(** ** Division by the bandwidth *)

Section Normalisation.

Import Numpy Torch Layer PerFilter.
Local Open Scope result_scope.


Lemma fdiv_nonzero x y : y <> 0 -> fdiv x y = Some (x / y).
Proof. intros H. unfold fdiv. destruct (Req_dec_T y 0); [contradiction|reflexivity]. Qed.







End Normalisation.

Section ClampedFilters.

Import Numpy Torch Layer PerFilter.
Local Open Scope result_scope.






End ClampedFilters.

Section NegativeBand.

Import Numpy Torch Layer PerFilter.
Local Open Scope result_scope.



End NegativeBand.

(** ** The synthesis formula *)

Section Formula.

Import Numpy Torch Layer PerFilter.
Local Open Scope result_scope.

Lemma map2_map_l {A B C D : Type} (f : B -> C -> D) (g : A -> B) xs ys :
  map2 f (map g xs) ys = map2 (fun x y => f (g x) y) xs ys.
Proof.
  revert ys; induction xs as [|x xs IH]; intros [|y ys]; simpl; try easy.
  now rewrite IH.
Qed.

Lemma map2_ext {A B C : Type} (f g : A -> B -> C) xs ys :
  (forall x y, f x y = g x y) -> map2 f xs ys = map2 g xs ys.
Proof.
  intros H. revert ys; induction xs as [|x xs IH]; intros [|y ys]; simpl;
    try easy.
  now rewrite H, IH.
Qed.

(** The tap the code computes from the stored angular time stamp
    [2 pi k / sample_rate] is the tap of the formula at [t = k /
    sample_rate]. *)
Lemma code_tap_is_spec_tap (hi lo a sr w : R) :
  fmul_r (fdiv (sin (hi * (2 * PI * a / sr)) - sin (lo * (2 * PI * a / sr)))
               (2 * PI * a / sr / 2)) w
  = Spec.left_tap hi lo (a / sr) w.
Proof.
  unfold Spec.left_tap. unfold Rdiv.
  replace (hi * (2 * PI * a * / sr)) with (2 * PI * hi * (a * / sr)) by ring.
  replace (lo * (2 * PI * a * / sr)) with (2 * PI * lo * (a * / sr)) by ring.
  replace (2 * PI * a * / sr * / 2) with (PI * (a * / sr) * (2 * / 2)) by ring.
  rewrite Rinv_r by lra. now rewrite Rmult_1_r.
Qed.

Lemma left_row_is_spec id oc ks sr st pad dil mlo mb ic l lo bd x y :
  __init__ id oc ks sr st pad dil mlo mb ic = Ok l ->
  left_row (set_params l lo bd) x y
  = Spec.left_half y x (Spec.time_axis (_kernel_size l) (_sample_rate l))
      (_window l).
Proof.
  intros H. apply init_inv in H.
  destruct H as (_ & _ & _ & _ & Hks & _ & _ & _ & Hsr & _ & _ & _ & _ & _ & Hn).
  unfold left_row, Spec.left_half, Spec.time_axis. simpl.
  rewrite Hn, Hks, Hsr. rewrite !map_map.
  rewrite map2_map_same, map2_map_same, !map2_map_l.
  apply map2_ext. intros a w. apply code_tap_is_spec_tap.
Qed.

(** C6: for every filter, the left half of the kernel is the
    low-pass-difference formula at the fixed negative time axis times the
    fixed window (the first half of the Hamming window), the centre tap
    before normalisation is [2 band], and the concatenation of left half,
    centre and reversed left half is divided entry by entry by
    [2 band]. *)
Theorem synthesis_follows_formula id oc ks sr st pad dil mlo mb ic l lo bd ps :
  Layer.__init__ id oc ks sr st pad dil mlo mb ic = Ok l ->
  raw_pairs (set_params l lo bd) = Ok ps ->
  let self := set_params l lo bd in
  let ts := Spec.time_axis (_kernel_size self) (_sample_rate self) in
  _window self
  = firstn (Z.to_nat (_kernel_size self / 2)) (hamming (_kernel_size self))
  /\ Layer.low self = map (lowf self) (_low_hz self)
  /\ Layer.high self = Ok (map (fun p => highf self (fst p) (snd p)) ps)
  /\ Layer.band self
     = Ok (map (fun p => highf self (fst p) (snd p) - lowf self (fst p)) ps)
  /\ Layer.band_pass_left self
     = Ok (map (fun p => Spec.left_half (highf self (fst p) (snd p))
                           (lowf self (fst p)) ts (_window self)) ps)
  /\ Layer.band_pass_center self
     = Ok (map (fun p => [Some (2 * (highf self (fst p) (snd p)
                                      - lowf self (fst p)))]) ps)
  /\ Layer.band_pass self
     = Ok (map (fun p => Spec.kernel (highf self (fst p) (snd p))
                           (lowf self (fst p)) ts (_window self)) ps).
Proof.
  intros Hl Hps self ts.
  assert (Hleft : forall x y,
            left_row self x y = Spec.left_half y x ts (_window self)).
  { intros x y. unfold self, ts.
    apply (left_row_is_spec _ _ _ _ _ _ _ _ _ _ _ _ _ _ _ Hl). }
  assert (Hwin : _window self
                 = firstn (Z.to_nat (_kernel_size self / 2))
                     (hamming (_kernel_size self))).
  { pose proof Hl as Hf. apply init_inv in Hf.
    destruct Hf as (_ & _ & _ & _ & Hks & _ & _ & _ & _ & _ & _ & _ & _ & Hw & _).
    unfold self; simpl. now rewrite Hw, Hks. }
  fold self in Hps. clearbody self ts.
  split; [exact Hwin|]. split; [reflexivity|].
  rewrite high_rows, band_rows, band_pass_left_rows, band_pass_rows.
  unfold band_pass_center. rewrite band_rows, Hps. simpl.
  repeat split.
  - f_equal. apply map_ext. intros p. apply Hleft.
  - now rewrite map_map.
  - f_equal. apply map_ext. intros p.
    unfold kernel_row, Spec.kernel. now rewrite Hleft.
Qed.

(** The formula at a filter of length 3 with raw parameters 100 and 200. *)
Lemma synthesis_follows_formula_witness :
  exists l,
    Layer.__init__ 0 1 3 16000 1 0 1 50 50 1 = Ok l
    /\ raw_pairs (set_params l [100] [200]) = Ok [(100, 200)]
    /\ Layer.band_pass_left (set_params l [100] [200])
       = Ok [Spec.left_half (highf (set_params l [100] [200]) 100 200)
               (lowf (set_params l [100] [200]) 100)
               (Spec.time_axis (_kernel_size l) (_sample_rate l))
               (_window l)].
Proof.
  destruct (init_ok 0 1 3 16000 1 0 1 50 50 ltac:(now vm_compute)) as [l Hl].
  exists l. split; [exact Hl|]. split; [reflexivity|].
  destruct (synthesis_follows_formula 0 1 3 16000 1 0 1 50 50 1 l [100] [200]
              [(100, 200)] Hl eq_refl) as (_ & _ & _ & _ & H & _).
  exact H.
Defined.

End Formula.

(** ** The cached property *)

Section Memoization.

Import Numpy Torch Layer PerFilter.

Lemma filters_hit self v : filters self (Some (self_id self, v)) = (Ok v, Some (self_id self, v)).
Proof. unfold filters. now rewrite Nat.eqb_refl. Qed.

(** What a successful evaluation leaves in the cache. *)
Lemma filters_ok_cache self c K c' :
  filters self c = (Ok K, c') -> c' = Some (self_id self, K).
Proof.
  unfold filters.
  destruct c as [[key v]|].
  - destruct (key =? self_id self)%nat eqn:E.
    + intros [= <- <-]. apply Nat.eqb_eq in E. now subst.
    + destruct (filters_body self); intros [= <- <-]; reflexivity.
  - destruct (filters_body self); intros [= <- <-]; reflexivity.
Qed.

(** C3, as far as it holds: evaluating [filters] twice in a row gives the
    same result; an evaluation whose layer the cache does not hold
    computes the kernel bank from the current parameter values; but once
    an evaluation has returned a kernel bank, an evaluation after any
    update of the parameters returns that same kernel bank again, not the
    one of the new values. *)
Theorem filters_memoized (self : SincNetFilterConvLayer) (c : Layer.FiltersCache) :
  (forall r c', Layer.filters self c = (r, c') ->
                Layer.filters self c' = (r, c'))
  /\ ((forall v, c <> Some (self_id self, v)) ->
      fst (Layer.filters self c) = Layer.filters_body self)
  /\ (forall K c', Layer.filters self c = (Ok K, c') ->
        forall low_hz band_hz,
          Layer.filters (set_params self low_hz band_hz) c' = (Ok K, c')).
Proof.
  split; [|split].
  - intros r c'. unfold filters at 1.
    destruct c as [[key v]|].
    + destruct (key =? self_id self)%nat eqn:E.
      * intros [= <- <-]. unfold filters. now rewrite E.
      * destruct (filters_body self) as [K|e] eqn:Eb; intros [= <- <-].
        -- apply filters_hit.
        -- unfold filters. now rewrite E, Eb.
    + destruct (filters_body self) as [K|e] eqn:Eb; intros [= <- <-].
      * apply filters_hit.
      * unfold filters. now rewrite Eb.
  - intros Hc. unfold filters.
    destruct c as [[key v]|].
    + destruct (key =? self_id self)%nat eqn:E.
      * apply Nat.eqb_eq in E. subst key. now destruct (Hc v).
      * now destruct (filters_body self).
    + now destruct (filters_body self).
  - intros K c' H lo bd. apply filters_ok_cache in H. subst c'.
    apply (filters_hit (set_params self lo bd) K).
Qed.

End Memoization.

Section StaleKernel.

Import Numpy Torch Layer PerFilter.

Lemma hamming3_half :
  firstn (Z.to_nat (3 / 2)) (hamming 3) = [0.54 - 0.46 * cos 0].
Proof.
  unfold hamming.
  change (3 <? 1)%Z with false. change (3 =? 1)%Z with false.
  change (Z.to_nat (3 / 2)) with 1%nat. change (Z.to_nat 3) with 3%nat.
  cbn [seq map firstn]. change (INR 0) with 0.
  replace (2 * PI * 0 / IZR (3 - 1)) with 0 by (unfold Rdiv; ring).
  reflexivity.
Qed.

Lemma time_axis3 (sr : Z) : Spec.time_axis 3 sr = [-1 / IZR sr].
Proof. reflexivity. Qed.

(** The kernel bank of a layer with one filter of length 3, by the
    formula. *)
Lemma one_filter_kernel3 id sr st pad dil mlo mb l p b :
  __init__ id 1 3 sr st pad dil mlo mb 1 = Ok l ->
  filters_body (set_params l [p] [b])
  = Ok (mkTensor [1; 1; 3]%Z
          (Spec.kernel (highf (set_params l [p] [b]) p b)
             (lowf (set_params l [p] [b]) p)
             [-1 / IZR sr] [0.54 - 0.46 * cos 0])).
Proof.
  intros Hl.
  rewrite (filters_body_ok id 1 3 sr st pad dil mlo mb 1 l [p] [b]
             ltac:(lia) ltac:(lia) Hl eq_refl eq_refl).
  cbn [map2 map concat fst snd]. rewrite app_nil_r.
  unfold kernel_row, Spec.kernel.
  rewrite (left_row_is_spec _ _ _ _ _ _ _ _ _ _ _ _ _ _ _ Hl).
  apply init_inv in Hl.
  destruct Hl as (_ & _ & _ & _ & Hks & _ & _ & _ & Hsr & _ & _ & _ & _ & Hw & _).
  rewrite Hks, Hsr, Hw.
  change (odd_kernel_size 3) with 3%Z.
  now rewrite time_axis3, hamming3_half.
Qed.

Lemma window_tap : 0.54 - 0.46 * cos 0 = 0.08.
Proof. rewrite cos_0. lra. Qed.

(** Cutoffs 0 and 8000: the sines at both edges vanish and the left tap
    is 0. *)
Lemma tap_0_8000 :
  fdiv_r (Spec.left_tap 8000 0 (-1 / 16000) 0.08) (2 * (8000 - 0)) = Some 0.
Proof.
  unfold Spec.left_tap.
  replace (2 * PI * 8000 * (-1 / 16000)) with (- PI) by lra.
  replace (2 * PI * 0 * (-1 / 16000)) with 0 by lra.
  rewrite sin_neg, sin_PI, sin_0.
  pose proof PI_RGT_0.
  rewrite fdiv_nonzero by nra. simpl.
  rewrite fdiv_nonzero by lra. f_equal. unfold Rdiv. ring.
Qed.

(** Cutoffs 4000 and 8000: the left tap is [-0.16 / pi]. *)
Lemma tap_4000_8000 :
  fdiv_r (Spec.left_tap 8000 4000 (-1 / 16000) 0.08) (2 * (8000 - 4000))
  = Some (- 0.16 / PI).
Proof.
  unfold Spec.left_tap.
  replace (2 * PI * 8000 * (-1 / 16000)) with (- PI) by lra.
  replace (2 * PI * 4000 * (-1 / 16000)) with (- (PI / 2)) by lra.
  rewrite !sin_neg, sin_PI, sin_PI2.
  pose proof PI_RGT_0.
  rewrite fdiv_nonzero by nra. simpl.
  rewrite fdiv_nonzero by lra. f_equal.
  replace 0.08 with (8 / 100) by lra.
  replace (-0.16) with (- (16 / 100)) by lra.
  field. lra.
Qed.

(** The two kernel banks of the layer with one filter of length 3 and
    [min_low_hz = 0]: raw parameters (0, 8000) give cutoffs 0 and 8000,
    raw parameters (4000, 4000) give cutoffs 4000 and 8000. *)
Lemma two_kernels l :
  __init__ 0 1 3 16000 1 0 1 0 50 1 = Ok l ->
  filters_body (set_params l [0] [8000])
  = Ok (mkTensor [1; 1; 3]%Z
          (Spec.kernel 8000 0 [-1 / 16000] [0.08]))
  /\ filters_body (set_params l [4000] [4000])
     = Ok (mkTensor [1; 1; 3]%Z
             (Spec.kernel 8000 4000 [-1 / 16000] [0.08])).
Proof.
  intros Hl.
  pose proof (one_filter_kernel3 _ _ _ _ _ _ _ _ 0 8000 Hl) as H1.
  pose proof (one_filter_kernel3 _ _ _ _ _ _ _ _ 4000 4000 Hl) as H2.
  apply init_inv in Hl.
  destruct Hl as (_ & _ & _ & _ & _ & _ & _ & _ & Hsr & Hml & Hmb & _).
  rewrite window_tap in H1, H2.
  assert (Hny : forall lo bd, nyquist (set_params l lo bd) = 8000)
    by (intros; unfold nyquist; simpl; rewrite Hsr; lra).
  assert (L1 : lowf (set_params l [0] [8000]) 0 = 0)
    by (unfold lowf; simpl; rewrite Hml, Rabs_R0; lra).
  assert (L2 : lowf (set_params l [4000] [4000]) 4000 = 4000)
    by (unfold lowf; simpl; rewrite Hml, Rabs_pos_eq; lra).
  assert (U1 : highf (set_params l [0] [8000]) 0 8000 = 8000).
  { unfold highf. rewrite Hny. apply clamp_above.
    unfold pre_highf. rewrite L1. simpl. rewrite Hmb, Rabs_pos_eq; lra. }
  assert (U2 : highf (set_params l [4000] [4000]) 4000 4000 = 8000).
  { unfold highf. rewrite Hny. apply clamp_above.
    unfold pre_highf. rewrite L2. simpl. rewrite Hmb, Rabs_pos_eq; lra. }
  rewrite L1, U1 in H1. rewrite L2, U2 in H2. now split.
Qed.

(** C3 fails across a parameter update: the layer synthesizes its kernel
    bank for cutoffs 0 and 8000 (left tap 0); the parameters are then
    changed to give cutoffs 4000 and 8000, whose kernel bank has the left
    tap [-0.16 / pi]; the next evaluation of [filters] still returns the
    first kernel bank. *)
Lemma stale_kernel_after_update :
  exists l K1 K2 c1,
    Layer.__init__ 0 1 3 16000 1 0 1 0 50 1 = Ok l
    /\ Layer.filters (set_params l [0] [8000]) None = (Ok K1, c1)
    /\ Layer.filters (set_params l [4000] [4000]) c1 = (Ok K1, c1)
    /\ Layer.filters_body (set_params l [4000] [4000]) = Ok K2
    /\ get3 K1 0 0 0 = Some (Some 0)
    /\ get3 K2 0 0 0 = Some (Some (- 0.16 / PI))
    /\ K1 <> K2.
Proof.
  destruct (init_ok 0 1 3 16000 1 0 1 0 50 ltac:(now vm_compute)) as [l Hl].
  destruct (two_kernels l Hl) as [H1 H2].
  pose proof Hl as Hf. apply init_inv in Hf.
  destruct Hf as (_ & _ & Hid & _).
  exists l, (mkTensor [1; 1; 3]%Z (Spec.kernel 8000 0 [-1 / 16000] [0.08])),
    (mkTensor [1; 1; 3]%Z (Spec.kernel 8000 4000 [-1 / 16000] [0.08])),
    (Some (0%nat, mkTensor [1; 1; 3]%Z (Spec.kernel 8000 0 [-1 / 16000] [0.08]))).
  assert (G1 : get3 (mkTensor [1; 1; 3]%Z
                       (Spec.kernel 8000 0 [-1 / 16000] [0.08])) 0 0 0
               = Some (Some 0)).
  { unfold get3, Spec.kernel, Spec.left_half. cbn [map2 map app rev nth_error
      t_shape t_data Z.leb Z.ltb Z.compare andb Z.to_nat Z.mul Z.add].
    now rewrite tap_0_8000. }
  assert (G2 : get3 (mkTensor [1; 1; 3]%Z
                       (Spec.kernel 8000 4000 [-1 / 16000] [0.08])) 0 0 0
               = Some (Some (- 0.16 / PI))).
  { unfold get3, Spec.kernel, Spec.left_half. cbn [map2 map app rev nth_error
      t_shape t_data Z.leb Z.ltb Z.compare andb Z.to_nat Z.mul Z.add].
    now rewrite tap_4000_8000. }
  split; [exact Hl|].
  split; [rewrite filters_miss_none, H1; simpl; now rewrite Hid|].
  split; [unfold filters; simpl; now rewrite Hid|].
  split; [exact H2|]. split; [exact G1|]. split; [exact G2|].
  intros E. rewrite E, G2 in G1. injection G1 as G1.
  pose proof (Rinv_0_lt_compat PI PI_RGT_0). unfold Rdiv in G1. lra.
Qed.

(** The memoization at the same layer: the first evaluation computes from
    the parameters, the second repeats it, and so does the one after the
    update. *)
Lemma filters_memoized_witness :
  exists l K c1,
    Layer.__init__ 0 1 3 16000 1 0 1 0 50 1 = Ok l
    /\ Layer.filters (set_params l [0] [8000]) None = (Ok K, c1)
    /\ Layer.filters (set_params l [0] [8000]) c1 = (Ok K, c1)
    /\ fst (Layer.filters (set_params l [0] [8000]) None)
       = Layer.filters_body (set_params l [0] [8000])
    /\ Layer.filters (set_params l [4000] [4000]) c1 = (Ok K, c1).
Proof.
  destruct (init_ok 0 1 3 16000 1 0 1 0 50 ltac:(now vm_compute)) as [l Hl].
  destruct (two_kernels l Hl) as [H1 _].
  assert (Hf : filters (set_params l [0] [8000]) None
               = (Ok (mkTensor [1; 1; 3]%Z
                        (Spec.kernel 8000 0 [-1 / 16000] [0.08])),
                  Some (self_id (set_params l [0] [8000]),
                        mkTensor [1; 1; 3]%Z
                          (Spec.kernel 8000 0 [-1 / 16000] [0.08]))))
    by (now rewrite filters_miss_none, H1).
  destruct (filters_memoized (set_params l [0] [8000]) None)
    as (Hidem & Hmiss & Hstale).
  eexists l, _, _.
  split; [exact Hl|]. split; [exact Hf|].
  split; [exact (Hidem _ _ Hf)|].
  split; [apply Hmiss; intros v; discriminate|].
  exact (Hstale _ _ Hf [4000] [4000]).
Defined.

End StaleKernel.

(** ** Construction *)

Section Construction.

Import Numpy Torch Layer.

Lemma layer_init_in_channels id oc ks sr st pad dil mlo mb ic :
  ic <> 1%Z ->
  Layer.__init__ id oc ks sr st pad dil mlo mb ic = Raise ValueError.
Proof.
  intros H. unfold Layer.__init__.
  destruct (ic =? 1)%Z eqn:E; [apply Z.eqb_eq in E; contradiction|].
  reflexivity.
Qed.

(** The network [SincNet.__init__] returns around its analytic layer. *)
Lemma net_init_ok id a l :
  sample_rate a = 16000%Z ->
  Layer.__init__ id (num_sinc_filters a) (sinc_filter_length a)
    (sample_rate a) (sinc_filter_stride a) (sinc_filter_padding a)
    (sinc_filter_dilation a) (min_low_hz a) (min_band_hz a)
    (sinc_filter_in_channels a) = Ok l ->
  Net.__init__ id a
  = Ok {| wav_norm1d := mkInstanceNorm1d (num_wavform_channels a);
          conv1d :=
            [ SincConv l;
              Conv1d (num_sinc_filters a) (num_conv_filters a)
                     (conv_filter_length a);
              Conv1d (num_conv_filters a) (num_conv_filters a)
                     (conv_filter_length a) ];
          pool1d :=
            [ mkMaxPool1d (pool_kernel_size a) (pool_stride a);
              mkMaxPool1d (pool_kernel_size a) (pool_stride a);
              mkMaxPool1d (pool_kernel_size a) (pool_stride a) ];
          norm1d :=
            [ mkInstanceNorm1d (num_sinc_filters a);
              mkInstanceNorm1d (num_conv_filters a);
              mkInstanceNorm1d (num_conv_filters a) ] |}.
Proof.
  intros Hsr Hl. unfold Net.__init__. rewrite Hl.
  rewrite Hsr. reflexivity.
Qed.

(** C7, as far as it holds: construction raises for a sample rate other
    than 16000 ([SincNet]) and for an input channel count other than 1
    (the analytic layer, also when built by [SincNet]); the floors
    [min_low_hz] and [min_band_hz] are not examined: with the other
    arguments at their defaults, construction of the layer and of the
    network succeeds for every pair of floors. *)
Theorem construction_checks (id : nat) (a : SincNetArgs) :
  (sample_rate a <> 16000%Z -> Net.__init__ id a = Raise NotImplementedError)
  /\ (sample_rate a = 16000%Z -> sinc_filter_in_channels a <> 1%Z ->
      Net.__init__ id a = Raise ValueError)
  /\ (forall oc ks sr st pad dil mlo mb ic,
        ic <> 1%Z ->
        Layer.__init__ id oc ks sr st pad dil mlo mb ic = Raise ValueError)
  /\ (forall mlo mb,
        is_ok (Layer.__init__ id 80 251 16000 10 0 1 mlo mb 1) = true
        /\ is_ok (Net.__init__ id (with_floors default_args mlo mb)) = true).
Proof.
  split; [|split; [|split; [|intros mlo mb; split]]].
  - intros H. unfold Net.__init__.
    destruct (sample_rate a =? 16000)%Z eqn:E;
      [apply Z.eqb_eq in E; contradiction|reflexivity].
  - intros Hsr Hic. unfold Net.__init__. rewrite Hsr.
    change (negb (16000 =? 16000)%Z) with false. cbv iota.
    now rewrite layer_init_in_channels.
  - intros. now apply layer_init_in_channels.
  - destruct (init_ok id 80 251 16000 10 0 1 mlo mb ltac:(now vm_compute))
      as [l Hl].
    now rewrite Hl.
  - destruct (init_ok id 80 251 16000 10 0 1 mlo mb ltac:(now vm_compute))
      as [l Hl].
    rewrite (net_init_ok id (with_floors default_args mlo mb) l);
      [reflexivity|reflexivity|exact Hl].
Qed.

(** Construction at sample rate 8000, with two input channels, and with
    the defaults and floors 100 and 200. *)
Lemma construction_checks_witness :
  Net.__init__ 0 (with_sample_rate default_args 8000) = Raise NotImplementedError
  /\ Net.__init__ 0 (with_in_channels default_args 2) = Raise ValueError
  /\ Layer.__init__ 0 80 251 16000 1 0 1 50 50 2 = Raise ValueError
  /\ is_ok (Net.__init__ 0 (with_floors default_args 100 200)) = true.
Proof.
  split; [|split; [|split]].
  - apply (construction_checks 0 (with_sample_rate default_args 8000)).
    simpl. lia.
  - apply (construction_checks 0 (with_in_channels default_args 2));
      simpl; [reflexivity|lia].
  - apply (construction_checks 0 default_args). lia.
  - apply (construction_checks 0 default_args).
Defined.

(** C7 fails for inconsistent floors: with [min_low_hz = min_band_hz =
    4000] the floors add up to [sample_rate/2 = 8000], and both
    constructors return normally. *)
Lemma inconsistent_floors_accepted :
  4000 + 4000 >= IZR (sample_rate default_args) / 2
  /\ (exists l, Layer.__init__ 0 80 251 16000 10 0 1 4000 4000 1 = Ok l)
  /\ (exists net, Net.__init__ 0 (with_floors default_args 4000 4000) = Ok net).
Proof.
  split; [simpl; lra|].
  destruct (init_ok 0 80 251 16000 10 0 1 4000 4000 ltac:(now vm_compute))
    as [l Hl].
  split; [now exists l|].
  eexists. apply (net_init_ok 0 (with_floors default_args 4000 4000) l);
    [reflexivity|exact Hl].
Qed.

End Construction.

(** ** The shape of the pipeline's output *)

Section Pipeline.

Import Numpy Torch Layer.
Local Open Scope Z_scope.






End Pipeline.

(** * Further properties of the code *)

(** ** The Mel-spaced initialisation *)

Section MelInitialisation.

Import Numpy Torch Layer MelInit.

Lemma ln10_pos : 0 < ln 10.
Proof. rewrite <- ln_1. apply ln_increasing; lra. Qed.


Lemma hz_of_mel_of_hz (f : R) : -700 < f -> mel_to_hz (hz_to_mel f) = f.
Proof.
  intros Hf. unfold hz_to_mel, mel_to_hz, log10, pow10, Rpower.
  pose proof ln10_pos.
  replace (2595 * (ln (1 + f / 700) / ln 10) / 2595 * ln 10)
    with (ln (1 + f / 700)) by (field; lra).
  rewrite exp_ln by lra. lra.
Qed.



Lemma removelast_map_seq {A : Type} (g : nat -> A) (a m : nat) :
  removelast (map g (seq a (S m))) = map g (seq a m).
Proof.
  revert a. induction m as [|m IH]; intros a; [reflexivity|].
  change (seq a (S (S m))) with (a :: seq (S a) (S m)).
  cbn [map]. change (seq a (S m)) with (a :: seq (S a) m). cbn [map].
  rewrite <- IH. reflexivity.
Qed.

Lemma diff_map_seq (g : nat -> R) (a m : nat) :
  diff (map g (seq a (S m))) = map (fun i => g (S i) - g i) (seq a m).
Proof.
  revert a. induction m as [|m IH]; intros a; [reflexivity|].
  change (seq a (S (S m))) with (a :: (S a) :: seq (S (S a)) m).
  cbn [map diff]. change (seq a (S m)) with (a :: seq (S a) m). cbn [map].
  f_equal. rewrite <- IH. reflexivity.
Qed.

(** The parameters of a freshly constructed layer, boundary by boundary. *)
Lemma init_params id oc ks sr st pad dil mlo mb ic l :
  __init__ id oc ks sr st pad dil mlo mb ic = Ok l ->
  _low_hz l = map (boundary oc sr mlo mb) (seq 0 (Z.to_nat (oc / 2)))
  /\ _band_hz l
     = map (fun i => boundary oc sr mlo mb (S i) - boundary oc sr mlo mb i)
           (seq 0 (Z.to_nat (oc / 2))).
Proof.
  unfold __init__.
  destruct (ic =? 1)%Z; simpl; [|discriminate].
  unfold linspace.
  destruct (oc / 2 + 1 <? 0)%Z eqn:En; simpl; [discriminate|].
  apply Z.ltb_ge in En.
  intros [= <-]; simpl. rewrite map_map.
  change (fun x : nat =>
            700 * (pow10 ((2595 * log10 (1 + 30 / 700)
                           + INR x * ((2595 * log10
                                         (1 + (IZR sr / 2 - (mlo + mb)) / 700)
                                       - 2595 * log10 (1 + 30 / 700))
                                      / IZR (oc / 2 + 1 - 1))) / 2595) - 1))
    with (boundary oc sr mlo mb).
  destruct (Z.eq_dec (oc / 2) (-1)) as [E|E].
  - rewrite E. simpl. split; reflexivity.
  - replace (Z.to_nat (oc / 2 + 1)) with (S (Z.to_nat (oc / 2))) by lia.
    now rewrite removelast_map_seq, diff_map_seq.
Qed.

Lemma boundary_first oc sr mlo mb : boundary oc sr mlo mb 0 = 30.
Proof.
  unfold boundary. cbn [INR]. rewrite Rmult_0_l, Rplus_0_r.
  apply hz_of_mel_of_hz. lra.
Qed.

Lemma boundary_last oc sr mlo mb :
  (1 <= oc / 2)%Z -> -700 < high_hz sr mlo mb ->
  boundary oc sr mlo mb (Z.to_nat (oc / 2)) = high_hz sr mlo mb.
Proof.
  intros Hm Hh. unfold boundary. cbv zeta.
  rewrite INR_IZR_INZ, Z2Nat.id by lia.
  replace (oc / 2 + 1 - 1)%Z with (oc / 2)%Z by lia.
  assert (IZR (oc / 2) <> 0) by (apply not_0_IZR; lia).
  replace (hz_to_mel 30
           + IZR (oc / 2)
             * ((hz_to_mel (high_hz sr mlo mb) - hz_to_mel 30) / IZR (oc / 2)))
    with (hz_to_mel (high_hz sr mlo mb)) by (field; assumption).
  now apply hz_of_mel_of_hz.
Qed.


Lemma nth_error_map_seq {A : Type} (g : nat -> A) (m i : nat) (x : A) :
  nth_error (map g (seq 0 m)) i = Some x -> (i < m)%nat /\ x = g i.
Proof.
  intros H.
  assert (Hi : (i < m)%nat).
  { assert (Hn : nth_error (map g (seq 0 m)) i <> None) by congruence.
    apply nth_error_Some in Hn. now rewrite length_map, length_seq in Hn. }
  split; [exact Hi|].
  rewrite nth_error_map, nth_error_seq in H.
  destruct (i <? m)%nat eqn:E; [|apply Nat.ltb_ge in E; lia].
  simpl in H. congruence.
Qed.

(** X1 (in exact arithmetic): the initial filters tile the band from 30
    Hz upwards.  The first
    low-cutoff parameter is 30, every filter's low-cutoff parameter plus
    its bandwidth parameter is the next filter's low-cutoff parameter, and
    the last filter ends at [sample_rate/2 - (min_low_hz + min_band_hz)]
    (the two conversions between Hz and Mel undo each other above -700
    Hz). *)
Theorem init_filters_tile_band id oc ks sr st pad dil mlo mb ic l :
  (2 <= oc)%Z ->
  -700 < high_hz sr mlo mb ->
  Layer.__init__ id oc ks sr st pad dil mlo mb ic = Ok l ->
  nth_error (_low_hz l) 0 = Some 30
  /\ (forall i a b c,
        nth_error (_low_hz l) i = Some a ->
        nth_error (_band_hz l) i = Some b ->
        nth_error (_low_hz l) (S i) = Some c -> a + b = c)
  /\ (exists a b,
        nth_error (_low_hz l) (Z.to_nat (oc / 2) - 1) = Some a
        /\ nth_error (_band_hz l) (Z.to_nat (oc / 2) - 1) = Some b
        /\ a + b = IZR sr / 2 - (mlo + mb)).
Proof.
  intros Hoc Hh Hl.
  assert (Hm : (1 <= oc / 2)%Z)
    by (apply Z.div_le_lower_bound; lia).
  destruct (init_params _ _ _ _ _ _ _ _ _ _ _ Hl) as [Hlo Hbd].
  rewrite Hlo, Hbd.
  set (g := boundary oc sr mlo mb).
  set (m := Z.to_nat (oc / 2)).
  assert (Hm' : (1 <= m)%nat) by (unfold m; lia).
  split; [|split].
  - rewrite nth_error_map, nth_error_seq.
    destruct (0 <? m)%nat eqn:E; [|apply Nat.ltb_ge in E; lia].
    simpl. f_equal. apply boundary_first.
  - intros i a b c Ha Hb Hc.
    apply nth_error_map_seq in Ha, Hb, Hc.
    destruct Ha as [_ ->], Hb as [_ ->], Hc as [_ ->]. lra.
  - exists (g (m - 1)%nat), (g (S (m - 1)) - g (m - 1)%nat).
    rewrite !nth_error_map, nth_error_seq.
    destruct (m - 1 <? m)%nat eqn:E; [|apply Nat.ltb_ge in E; lia].
    simpl. repeat split.
    replace (S (m - 1)) with m by lia.
    unfold g, m. rewrite boundary_last by assumption.
    unfold high_hz. lra.
Qed.

(** The default layer of 80 filters at 16000 Hz: the band from 30 to 7900
    Hz. *)
Lemma init_filters_tile_band_witness :
  exists l a b,
    Layer.__init__ 0 80 251 16000 10 0 1 50 50 1 = Ok l
    /\ nth_error (_low_hz l) 0 = Some 30
    /\ nth_error (_low_hz l) 39 = Some a
    /\ nth_error (_band_hz l) 39 = Some b
    /\ a + b = 7900.
Proof.
  destruct (init_ok 0 80 251 16000 10 0 1 50 50 ltac:(now vm_compute)) as [l Hl].
  assert (Hh : -700 < high_hz 16000 50 50) by (unfold high_hz; lra).
  destruct (init_filters_tile_band 0 80 251 16000 10 0 1 50 50 1 l
              ltac:(lia) Hh Hl) as (H0 & _ & a & b & Ha & Hb & Hab).
  exists l, a, b. split; [exact Hl|]. split; [exact H0|].
  split; [exact Ha|]. split; [exact Hb|]. lra.
Defined.







End MelInitialisation.

(** ** The kernel length and the buffers *)

Section Buffers.

Import Numpy Torch Layer.



(** X4: whatever [kernel_size] is asked for, the stored kernel length is
    odd, is [kernel_size] itself when that is odd and [kernel_size + 1]
    when it is even; for a [kernel_size] that is not negative the two
    buffers hold one entry for each sample left of the centre. *)
Theorem kernel_size_forced_odd id oc ks sr st pad dil mlo mb ic l :
  Layer.__init__ id oc ks sr st pad dil mlo mb ic = Ok l ->
  (_kernel_size l mod 2 = 1)%Z
  /\ ((ks mod 2 = 1)%Z -> _kernel_size l = ks)
  /\ ((ks mod 2 = 0)%Z -> _kernel_size l = (ks + 1)%Z)
  /\ ((0 <= ks)%Z ->
      (2 * Z.of_nat (length (_window l)) + 1 = _kernel_size l)%Z
      /\ length (_n l) = length (_window l)).
Proof.
  intros Hl. destruct (init_buffers _ _ _ _ _ _ _ _ _ _ _ Hl) as [Hw Hn].
  apply init_inv in Hl.
  destruct Hl as (_ & _ & _ & _ & Hks & _).
  pose proof (odd_kernel_size_odd ks) as Hodd. rewrite <- Hks in Hodd.
  pose proof (Z.mod_pos_bound ks 2 ltac:(lia)) as Hb.
  split; [|split; [|split]].
  - rewrite Hodd. rewrite Z.add_comm, Z.mul_comm, Z.mod_add by lia.
    reflexivity.
  - intros E. rewrite Hks. unfold odd_kernel_size.
    destruct (ks mod 2 =? 0)%Z eqn:E'; [apply Z.eqb_eq in E'; lia|reflexivity].
  - intros E. rewrite Hks. unfold odd_kernel_size.
    now rewrite E.
  - intros Hk. rewrite Hw, Hn. split; [|reflexivity].
    assert (0 <= _kernel_size l)%Z.
    { rewrite Hks. unfold odd_kernel_size. destruct (_ =? _)%Z; lia. }
    lia.
Qed.

Lemma kernel_size_forced_odd_witness :
  exists l1 l2,
    Layer.__init__ 0 80 251 16000 10 0 1 50 50 1 = Ok l1
    /\ Layer.__init__ 0 80 250 16000 10 0 1 50 50 1 = Ok l2
    /\ _kernel_size l1 = 251%Z /\ _kernel_size l2 = 251%Z
    /\ length (_window l1) = length (_n l1).
Proof.
  destruct (init_ok 0 80 251 16000 10 0 1 50 50 ltac:(now vm_compute)) as [l1 H1].
  destruct (init_ok 0 80 250 16000 10 0 1 50 50 ltac:(now vm_compute)) as [l2 H2].
  exists l1, l2. split; [exact H1|]. split; [exact H2|].
  destruct (kernel_size_forced_odd 0 80 251 16000 10 0 1 50 50 1 l1 H1)
    as (_ & Hodd & _ & Hbuf).
  destruct (kernel_size_forced_odd 0 80 250 16000 10 0 1 50 50 1 l2 H2)
    as (_ & _ & Heven & _).
  split; [now apply Hodd|]. split; [now apply Heven|].
  symmetry. apply Hbuf. lia.
Defined.



End Buffers.

(** ** When [filters] returns, and what it returns *)

Section FiltersReturn.

Import Numpy Torch Layer PerFilter.
Local Open Scope result_scope.

Lemma bcast2_mismatch {A B C : Type} (f : A -> B -> C) xs ys :
  length xs <> length ys -> length xs <> 1%nat -> length ys <> 1%nat ->
  bcast2 f xs ys = Raise RuntimeError.
Proof.
  intros H H1 H2. unfold bcast2.
  destruct (length xs =? length ys)%nat eqn:E;
    [apply Nat.eqb_eq in E; contradiction|].
  destruct xs as [|x [|x' xs]], ys as [|y [|y' ys]]; simpl in *;
    try reflexivity; contradiction.
Qed.

(** X6: on a layer as [__init__] builds it (any number of filters that is
    not negative, kernel length at least 1), with its parameter columns
    replaced by any columns, [filters] computes a kernel bank exactly when
    the columns broadcast to [out_channels] rows, and the bank then has
    shape (out_channels, 1, kernel_size); with another number of rows, or
    with columns that do not broadcast, it raises. *)
Theorem filters_returns_iff id oc ks sr st pad dil mlo mb ic l lo bd :
  (0 <= oc)%Z -> (1 <= ks)%Z ->
  Layer.__init__ id oc ks sr st pad dil mlo mb ic = Ok l ->
  (forall bds,
     Layer.band (set_params l lo bd) = Ok bds ->
     Z.of_nat (length bds) = oc ->
     exists K,
       Layer.filters_body (set_params l lo bd) = Ok K
       /\ t_shape K = [oc; 1%Z; _kernel_size l]
       /\ Z.of_nat (length (t_data K)) = (oc * _kernel_size l)%Z)
  /\ (forall bds,
        Layer.band (set_params l lo bd) = Ok bds ->
        Z.of_nat (length bds) <> oc ->
        Layer.filters_body (set_params l lo bd) = Raise RuntimeError)
  /\ (length lo <> length bd -> length lo <> 1%nat -> length bd <> 1%nat ->
      Layer.filters_body (set_params l lo bd) = Raise RuntimeError).
Proof.
  intros Ho Hk Hl.
  pose proof (init_built_shape _ _ _ _ _ _ _ _ _ _ _ lo bd Hk Hl) as Hb.
  pose proof Hl as Hf. apply init_inv in Hf.
  destruct Hf as (_ & _ & _ & Hoc & _).
  set (self := set_params l lo bd) in *.
  assert (Hoc' : _out_channels self = oc) by exact Hoc.
  assert (Hks' : _kernel_size self = _kernel_size l) by reflexivity.
  assert (Ho' : (0 <= _out_channels self)%Z) by lia.
  split; [|split].
  - intros bds Hbds Hlen. rewrite band_rows in Hbds.
    destruct (raw_pairs self) as [ps|e] eqn:Eps; simpl in Hbds; [|discriminate].
    injection Hbds as <-. rewrite length_map in Hlen.
    rewrite (filters_body_rows self ps Hb Ho' Eps), Hoc', Hlen, Z.eqb_refl.
    eexists. split; [reflexivity|]. split; [now rewrite Hks'|].
    cbn [t_data].
    rewrite (@concat_uniform_length _ (Z.to_nat (_kernel_size self))).
    + rewrite length_map, <- Hks'. destruct Hb as (H1 & _). lia.
    + apply Forall_forall. intros r Hr. apply in_map_iff in Hr.
      destruct Hr as (p & <- & _).
      rewrite <- (built_row_length self (lowf self (fst p))
                    (highf self (fst p) (snd p)) Hb).
      now rewrite Nat2Z.id.
  - intros bds Hbds Hlen. rewrite band_rows in Hbds.
    destruct (raw_pairs self) as [ps|e] eqn:Eps; simpl in Hbds; [|discriminate].
    injection Hbds as <-. rewrite length_map in Hlen.
    rewrite (filters_body_rows self ps Hb Ho' Eps), Hoc'.
    destruct (_ =? _)%Z eqn:E; [apply Z.eqb_eq in E; contradiction|reflexivity].
  - intros H H1 H2. unfold filters_body. rewrite band_pass_rows.
    unfold raw_pairs. cbn [self set_params _low_hz _band_hz].
    now rewrite bcast2_mismatch.
Qed.

Lemma filters_returns_iff_witness :
  exists l K,
    Layer.__init__ 0 2 3 16000 1 0 1 50 50 1 = Ok l
    /\ Layer.filters_body (set_params l [100; 200] [300; 400]) = Ok K
    /\ t_shape K = [2; 1; 3]%Z
    /\ Layer.filters_body (set_params l [100; 200; 300] [300; 400; 500])
       = Raise RuntimeError
    /\ Layer.filters_body (set_params l [100; 200; 300] [300; 400])
       = Raise RuntimeError.
Proof.
  destruct (init_ok 0 2 3 16000 1 0 1 50 50 ltac:(now vm_compute)) as [l Hl].
  pose proof Hl as Hf. apply init_inv in Hf.
  destruct Hf as (_ & _ & _ & _ & Hks & _).
  destruct (filters_returns_iff 0 2 3 16000 1 0 1 50 50 1 l
              [100; 200] [300; 400] ltac:(lia) ltac:(lia) Hl) as (H1 & _ & _).
  destruct (filters_returns_iff 0 2 3 16000 1 0 1 50 50 1 l
              [100; 200; 300] [300; 400; 500] ltac:(lia) ltac:(lia) Hl)
    as (_ & H2 & _).
  destruct (filters_returns_iff 0 2 3 16000 1 0 1 50 50 1 l
              [100; 200; 300] [300; 400] ltac:(lia) ltac:(lia) Hl)
    as (_ & _ & H3).
  assert (B1 : exists bds, band (set_params l [100; 200] [300; 400]) = Ok bds
                           /\ length bds = 2%nat)
    by (rewrite band_rows; eexists; split; reflexivity).
  assert (B2 : exists bds,
             band (set_params l [100; 200; 300] [300; 400; 500]) = Ok bds
             /\ length bds = 3%nat)
    by (rewrite band_rows; eexists; split; reflexivity).
  destruct B1 as (b1 & Hb1 & Hn1), B2 as (b2 & Hb2 & Hn2).
  destruct (H1 b1 Hb1 ltac:(lia)) as (K & HK & Hs & _).
  exists l, K. split; [exact Hl|]. split; [exact HK|].
  split; [rewrite Hs, Hks; reflexivity|].
  split; [apply (H2 b2 Hb2); lia|].
  apply H3; simpl; lia.
Defined.

(** X7: the parameters enter the synthesis through their absolute values
    only: replacing every raw parameter by its absolute value, or by its
    negative, changes neither the matrix [band_pass] nor what the body of
    [filters] returns or raises. *)
Theorem filters_ignore_signs (l : SincNetFilterConvLayer) (lo bd : list R) :
  Layer.band_pass (set_params l (map Rabs lo) (map Rabs bd))
  = Layer.band_pass (set_params l lo bd)
  /\ Layer.filters_body (set_params l (map Rabs lo) (map Rabs bd))
     = Layer.filters_body (set_params l lo bd)
  /\ Layer.band_pass (set_params l (map Ropp lo) (map Ropp bd))
     = Layer.band_pass (set_params l lo bd)
  /\ Layer.filters_body (set_params l (map Ropp lo) (map Ropp bd))
     = Layer.filters_body (set_params l lo bd).
Proof.
  assert (H : forall g : R -> R,
            (forall x, Rabs (g x) = Rabs x) ->
            band_pass (set_params l (map g lo) (map g bd))
            = band_pass (set_params l lo bd)).
  { intros g Hg. rewrite !band_pass_rows. unfold raw_pairs.
    cbn [set_params _low_hz _band_hz].
    rewrite (bcast2_map pair g g lo bd).
    destruct (bcast2 pair lo bd) as [ps|e]; cbn [bind]; [|reflexivity].
    rewrite map_map. f_equal. apply map_ext. intros [p b]. cbn [fst snd].
    unfold kernel_row, left_row, highf, pre_highf, lowf, nyquist.
    cbn [set_params _min_low_hz _min_band_hz _sample_rate _n _window].
    now rewrite !Hg. }
  assert (Habs := H Rabs Rabs_Rabsolu).
  assert (Hopp := H Ropp Rabs_Ropp).
  unfold filters_body. rewrite Habs, Hopp. repeat split.
Qed.

End FiltersReturn.

Section CentreTap.

Import Numpy Torch Layer PerFilter.
Local Open Scope result_scope.




End CentreTap.

(** ** The cache of [filters] is one slot for all layers *)

Section CacheSlot.

Import Numpy Torch Layer PerFilter.

(** X9: the memo of [filters] has a single slot shared by all layers and
    stores successes only.  An evaluation that raises leaves the cache as
    it was and raises what the body raises; and once another layer has
    been evaluated successfully, the next evaluation of the first layer
    computes its kernel bank afresh from its current parameters. *)
Theorem cache_single_slot (l1 l2 : SincNetFilterConvLayer) (c : Layer.FiltersCache) :
  (forall e c', Layer.filters l1 c = (Raise e, c') ->
                c' = c /\ Layer.filters_body l1 = Raise e)
  /\ (self_id l1 <> self_id l2 ->
      forall K1 c1 K2 c2,
        Layer.filters l1 c = (Ok K1, c1) ->
        Layer.filters l2 c1 = (Ok K2, c2) ->
        forall lo bd,
          fst (Layer.filters (set_params l1 lo bd) c2)
          = Layer.filters_body (set_params l1 lo bd)).
Proof.
  split.
  - intros e c'. unfold filters.
    destruct c as [[key v]|].
    + destruct (key =? self_id l1)%nat; [discriminate|].
      destruct (filters_body l1); [discriminate|].
      intros [= <- <-]. now split.
    + destruct (filters_body l1); [discriminate|].
      intros [= <- <-]. now split.
  - intros Hid K1 c1 K2 c2 H1 H2 lo bd.
    apply filters_ok_cache in H2. subst c2.
    unfold filters. cbn [set_params self_id].
    destruct (self_id l2 =? self_id l1)%nat eqn:E;
      [apply Nat.eqb_eq in E; congruence|].
    now destruct (filters_body (set_params l1 lo bd)).
Qed.

(** Two layers of one filter of length 3: after the second has been
    evaluated, the first one's kernel bank follows its new parameters. *)
Lemma cache_single_slot_witness :
  exists l1 l2 K1 c1 K2 c2,
    Layer.__init__ 0 1 3 16000 1 0 1 0 50 1 = Ok l1
    /\ Layer.__init__ 1 1 3 16000 1 0 1 0 50 1 = Ok l2
    /\ Layer.filters (set_params l1 [0] [8000]) None = (Ok K1, c1)
    /\ Layer.filters (set_params l2 [0] [8000]) c1 = (Ok K2, c2)
    /\ fst (Layer.filters (set_params l1 [4000] [4000]) c2)
       = Layer.filters_body (set_params l1 [4000] [4000]).
Proof.
  destruct (init_ok 0 1 3 16000 1 0 1 0 50 ltac:(now vm_compute)) as [l1 Hl1].
  destruct (init_ok 1 1 3 16000 1 0 1 0 50 ltac:(now vm_compute)) as [l2 Hl2].
  pose proof (one_filter_kernel3 _ _ _ _ _ _ _ _ 0 8000 Hl1) as H1.
  pose proof (one_filter_kernel3 _ _ _ _ _ _ _ _ 0 8000 Hl2) as H2.
  pose proof Hl1 as Hf1. apply init_inv in Hf1.
  destruct Hf1 as (_ & _ & Hid1 & _).
  pose proof Hl2 as Hf2. apply init_inv in Hf2.
  destruct Hf2 as (_ & _ & Hid2 & _).
  set (s1 := set_params l1 [0] [8000]) in *.
  set (s2 := set_params l2 [0] [8000]) in *.
  assert (F1 : exists K1, filters s1 None = (Ok K1, Some (self_id s1, K1)))
    by (rewrite filters_miss_none, H1; eexists; reflexivity).
  destruct F1 as [K1 F1].
  assert (Hne : self_id s1 <> self_id s2)
    by (unfold s1, s2; cbn [set_params self_id]; lia).
  assert (F2 : exists K2, filters s2 (Some (self_id s1, K1))
                          = (Ok K2, Some (self_id s2, K2))).
  { unfold filters at 1.
    destruct (self_id s1 =? self_id s2)%nat eqn:E;
      [apply Nat.eqb_eq in E; contradiction|].
    rewrite H2. eexists; reflexivity. }
  destruct F2 as [K2 F2].
  destruct (cache_single_slot s1 s2 None) as [_ H].
  exists l1, l2, K1, (Some (self_id s1, K1)), K2, (Some (self_id s2, K2)).
  split; [exact Hl1|]. split; [exact Hl2|]. split; [exact F1|].
  split; [exact F2|].
  exact (H Hne _ _ _ _ F1 F2 [4000] [4000]).
Defined.

End CacheSlot.

(** ** The forward pass of the analytic layer *)

Section LayerForward.

Import Numpy Torch Layer PerFilter Forward.
Local Open Scope result_scope.


Lemma filters_miss self c :
  (forall v, c <> Some (self_id self, v)) ->
  filters self c
  = match filters_body self with
    | Ok v => (Ok v, Some (self_id self, v))
    | Raise e => (Raise e, c)
    end.
Proof.
  intros Hc. unfold filters. destruct c as [[key v]|]; [|reflexivity].
  destruct (key =? self_id self)%nat eqn:E; [|reflexivity].
  apply Nat.eqb_eq in E. subst key. now destruct (Hc v).
Qed.




Lemma osum_negated (l : list (option R)) :
  osum (map (option_map Ropp) l) = option_map Ropp (osum l).
Proof.
  induction l as [|[a|] l IH]; simpl.
  - f_equal. lra.
  - fold (osum (map (option_map Ropp) l)). fold (osum l). rewrite IH.
    destruct (osum l); simpl; [f_equal; lra|reflexivity].
  - reflexivity.
Qed.

Lemma sample_negated x b c j : sample (negated x) b c j = - sample x b c j.
Proof.
  unfold sample, get3, negated. cbn [t_shape t_data].
  destruct (t_shape x) as [|d0 [|d1 [|d2 [|? ?]]]]; try lra.
  destruct (_ && _)%bool; [|lra].
  rewrite nth_error_map. destruct (nth_error _ _); simpl; lra.
Qed.

Lemma conv_terms_negated x w s p d cw kw b o t :
  conv_terms (negated x) w s p d cw kw b o t
  = map (option_map Ropp) (conv_terms x w s p d cw kw b o t).
Proof.
  unfold conv_terms. induction (seq 0 (Z.to_nat cw)) as [|c cs IH]; simpl;
    [reflexivity|].
  rewrite map_app, IH, map_map. f_equal.
  apply map_ext. intros k. rewrite sample_negated.
  destruct (weight_at _ _ _ _); simpl; [f_equal; ring|reflexivity].
Qed.

Lemma map_flat_map_ext {A B C : Type} (g : B -> C) (f1 f2 : A -> list B) l :
  (forall a, map g (f1 a) = map g (f2 a)) ->
  map g (flat_map f1 l) = map g (flat_map f2 l).
Proof.
  intros H. induction l as [|a l IH]; [reflexivity|].
  cbn [flat_map]. now rewrite !map_app, H, IH.
Qed.

Lemma abs_conv_negated x w s p d :
  bind (F_conv1d_values (negated x) w s p d) (fun y => Ok (abs_ y))
  = bind (F_conv1d_values x w s p d) (fun y => Ok (abs_ y)).
Proof.
  unfold F_conv1d_values. change (t_shape (negated x)) with (t_shape x).
  destruct (Net.F_conv1d (t_shape x) (t_shape w) s p d) as [sh|e];
    [|reflexivity].
  cbn [bind].
  destruct (t_shape w) as [|w0 [|cw [|kw [|? ?]]]]; try reflexivity.
  destruct sh as [|batch [|c_out [|len [|? ?]]]]; try reflexivity.
  cbn [bind]. unfold abs_. cbn [t_shape t_data]. do 2 f_equal.
  apply map_flat_map_ext. intros b.
  apply map_flat_map_ext. intros o.
  rewrite !map_map. apply map_ext. intros t.
  rewrite conv_terms_negated, osum_negated.
  destruct (osum _); simpl; [now rewrite Rabs_Ropp|reflexivity].
Qed.

(** X11: the layer does not see the sign of the waveform: on the waveform
    with every sample negated [forward] returns, or raises, exactly what
    it does on the waveform itself, and leaves the same cache. *)
Theorem forward_ignores_sign (self : SincNetFilterConvLayer) (x : Tensor R)
  (c : Layer.FiltersCache) :
  Forward.forward self (negated x) c = Forward.forward self x c.
Proof.
  unfold forward, mbind.
  destruct (filters self c) as [[w|e] c']; [|reflexivity].
  unfold lift. now rewrite abs_conv_negated.
Qed.

(** X12: on a freshly constructed layer with at least one filter and a
    kernel length of at least 1, [forward] raises for every waveform (the
    cache not holding the layer) and leaves the cache as it was. *)
Theorem forward_fresh_raises id oc ks sr st pad dil mlo mb ic l x c :
  (1 <= oc)%Z -> (1 <= ks)%Z ->
  Layer.__init__ id oc ks sr st pad dil mlo mb ic = Ok l ->
  (forall v, c <> Some (id, v)) ->
  Forward.forward l x c = (Raise RuntimeError, c).
Proof.
  intros Ho Hk Hl Hc.
  pose proof (fresh_filters_body_raises _ _ _ _ _ _ _ _ _ _ _ Ho Hk Hl) as Hr.
  apply init_inv in Hl. destruct Hl as (_ & _ & Hid & _).
  unfold forward, mbind. rewrite filters_miss by (now rewrite Hid).
  now rewrite Hr.
Qed.

Lemma forward_fresh_raises_witness :
  exists l,
    Layer.__init__ 0 80 251 16000 10 0 1 50 50 1 = Ok l
    /\ Forward.forward l (mkTensor [1; 1; 4]%Z [1; 2; 3; 4]) None
       = (Raise RuntimeError, None).
Proof.
  destruct (init_ok 0 80 251 16000 10 0 1 50 50 ltac:(now vm_compute)) as [l Hl].
  exists l. split; [exact Hl|].
  apply (forward_fresh_raises 0 80 251 16000 10 0 1 50 50 1 l _ None
           ltac:(lia) ltac:(lia) Hl).
  intros v; discriminate.
Defined.

End LayerForward.

(** ** The pipeline on a freshly constructed network *)

Section NetForward.

Import Numpy Torch Layer.
Local Open Scope Z_scope.








End NetForward.

(** ** Filters do not interact *)

Section Independence.

Import Numpy Torch Layer PerFilter.
Local Open Scope result_scope.

Lemma nth_error_map2_pair {A B : Type} (xs : list A) (ys : list B) i :
  length xs = length ys ->
  nth_error (map2 pair xs ys) i
  = match nth_error xs i, nth_error ys i with
    | Some x, Some y => Some (x, y)
    | _, _ => None
    end.
Proof.
  revert ys i. induction xs as [|x xs IH]; intros [|y ys] i H;
    try discriminate.
  - now destruct i.
  - destruct i as [|i]; simpl; [reflexivity|]. apply IH. simpl in H. lia.
Qed.

(** X15: the kernel of a filter depends on that filter's own two
    parameters only: two settings of the parameter columns (each with as
    many low-cutoff as bandwidth rows) that agree on filter [i] give the
    same row [i] of [band_pass], whatever the other filters'
    parameters. *)
Theorem filters_independent (l : SincNetFilterConvLayer)
  (lo bd lo' bd' : list R) (i : nat) (rows rows' : list (list (option R))) :
  length lo = length bd -> length lo' = length bd' ->
  nth_error lo i = nth_error lo' i ->
  nth_error bd i = nth_error bd' i ->
  Layer.band_pass (set_params l lo bd) = Ok rows ->
  Layer.band_pass (set_params l lo' bd') = Ok rows' ->
  nth_error rows i = nth_error rows' i.
Proof.
  intros H H' Hlo Hbd. rewrite !band_pass_rows. unfold raw_pairs.
  cbn [set_params _low_hz _band_hz].
  rewrite !bcast2_same_length by assumption. cbn [bind].
  intros [= <-] [= <-].
  rewrite !nth_error_map, !nth_error_map2_pair by assumption.
  rewrite <- Hlo, <- Hbd.
  destruct (nth_error lo i), (nth_error bd i); reflexivity.
Qed.

Lemma filters_independent_witness :
  exists l rows rows',
    Layer.__init__ 0 2 3 16000 1 0 1 50 50 1 = Ok l
    /\ Layer.band_pass (set_params l [100; 200] [300; 400]) = Ok rows
    /\ Layer.band_pass (set_params l [100; 7000; 1] [300; 9; 2]) = Ok rows'
    /\ nth_error rows 0 = nth_error rows' 0.
Proof.
  destruct (init_ok 0 2 3 16000 1 0 1 50 50 ltac:(now vm_compute)) as [l Hl].
  assert (H1 : exists rows,
             band_pass (set_params l [100; 200] [300; 400]) = Ok rows)
    by (rewrite band_pass_rows; eexists; reflexivity).
  assert (H2 : exists rows,
             band_pass (set_params l [100; 7000; 1] [300; 9; 2]) = Ok rows)
    by (rewrite band_pass_rows; eexists; reflexivity).
  destruct H1 as [rows H1], H2 as [rows' H2].
  exists l, rows, rows'. split; [exact Hl|]. split; [exact H1|].
  split; [exact H2|].
  exact (filters_independent l [100; 200] [300; 400] [100; 7000; 1] [300; 9; 2]
           0 rows rows' eq_refl eq_refl eq_refl eq_refl H1 H2).
Defined.

End Independence.
